(** * Resume processing service: rule-based extraction and fallback answering

    A shallow embedding of [services/resume_processor.py] and
    [services/qa_service.py], followed by the properties of the profile
    assembler, the section locators, the skill matcher and the fallback
    answerer.

    Text model.  A Python [str] is embedded as a list of characters
    ([list ascii]); the character numbered [n] stands for the code point
    U+00[n], so the embedding covers every text over U+0000..U+00FF.  On
    that range [str.lower], [str.strip] and the [re] classes [\s], [\d],
    [\w] act character by character, and they are written out below. *)

From Stdlib Require Import List String Ascii ZArith NArith Bool Arith Lia.
From Stdlib Require Import DecimalString.
Import ListNotations.

Set Implicit Arguments.

(** ** Python strings *)

Module Py.

Definition str := list ascii.

(** A string literal of the source. *)
Definition lit (s : string) : str := list_ascii_of_string s.
Arguments lit s%_string.

Definition code (c : ascii) : N := N_of_ascii c.

Definition between (lo hi : N) (c : ascii) : bool :=
  (lo <=? code c)%N && (code c <=? hi)%N.

Definition one_of (codes : list N) (c : ascii) : bool :=
  existsb (N.eqb (code c)) codes.

(** [str.isspace] of one character: TAB..CR, FS..US, SPACE, NEL, NBSP. *)
Definition is_space (c : ascii) : bool :=
  between 9 13 c || between 28 32 c || one_of [133; 160]%N c.

(** [\d]: the decimal digits. *)
Definition is_digit (c : ascii) : bool := between 48 57 c.

(** Letters that have an upper-case and a lower-case form. *)
Definition is_upper (c : ascii) : bool :=
  between 65 90 c || (between 192 222 c && negb (one_of [215]%N c)).

Definition is_lower (c : ascii) : bool :=
  between 97 122 c || one_of [170; 181; 186]%N c
  || (between 223 255 c && negb (one_of [247]%N c)).

Definition is_cased (c : ascii) : bool := is_upper c || is_lower c.

(** [\w]: alphanumeric characters (letters, digits, superscripts and
    vulgar fractions) and the underscore. *)
Definition is_word (c : ascii) : bool :=
  is_cased c || is_digit c || one_of [95; 178; 179; 185; 188; 189; 190]%N c.

Definition lower_char (c : ascii) : ascii :=
  if is_upper c then ascii_of_N (code c + 32) else c.

(** Upper-case form, for the letters whose upper-case form is again below
    U+0100 (all of them but U+00B5, U+00DF and U+00FF, left as they are). *)
Definition upper_char (c : ascii) : ascii :=
  if between 97 122 c || (between 224 254 c && negb (one_of [247]%N c))
  then ascii_of_N (code c - 32) else c.

(** [s.lower()] *)
Definition lower (s : str) : str := map lower_char s.

(** [s.title()]: a cased character is upper-cased after an uncased one and
    lower-cased after a cased one. *)
Fixpoint title_from (prev_cased : bool) (s : str) : str :=
  match s with
  | [] => []
  | c :: s' =>
      (if is_cased c
       then if prev_cased then lower_char c else upper_char c
       else c) :: title_from (is_cased c) s'
  end.

Definition title (s : str) : str := title_from false s.

(** [s.startswith(p)] *)
Fixpoint startswith (p s : str) : bool :=
  match p, s with
  | [], _ => true
  | _ :: _, [] => false
  | a :: p', b :: s' => Ascii.eqb a b && startswith p' s'
  end.

(** [sub in s] *)
Fixpoint contains (sub s : str) : bool :=
  startswith sub s ||
  match s with
  | [] => false
  | _ :: s' => contains sub s'
  end.

(** [s.find(sub)], counting from [i]: the least index, or [-1]. *)
Fixpoint find_from (sub s : str) (i : Z) : Z :=
  if startswith sub s then i
  else match s with
       | [] => (-1)%Z
       | _ :: s' => find_from sub s' (i + 1)%Z
       end.

Definition find (sub s : str) : Z := find_from sub s 0%Z.

(** An index of a slice, clipped as Python clips it. *)
Definition clip (len i : Z) : Z :=
  if (i <? 0)%Z then Z.max 0 (i + len) else Z.min i len.

(** [s[lo:hi]] *)
Definition slice (s : str) (lo hi : Z) : str :=
  let len := Z.of_nat (List.length s) in
  let a := clip len lo in
  let b := clip len hi in
  firstn (Z.to_nat (b - a)) (skipn (Z.to_nat a) s).

(** [s.lstrip()], [s.rstrip()], [s.strip()] *)
Fixpoint lstrip (s : str) : str :=
  match s with
  | [] => []
  | c :: s' => if is_space c then lstrip s' else s
  end.

Definition rstrip (s : str) : str := rev (lstrip (rev s)).

Definition strip (s : str) : str := rstrip (lstrip s).

(** [s.split(sep)] for a non-empty separator: [skip] counts the characters
    of a separator still to pass over, [cur] is the current piece, last
    character first. *)
Fixpoint split_from (sep s : str) (skip : nat) (cur : str) : list str :=
  match s with
  | [] => [rev cur]
  | c :: s' =>
      match skip with
      | S k => split_from sep s' k cur
      | O =>
          if startswith sep s
          then rev cur :: split_from sep s' (List.length sep - 1) []
          else split_from sep s' 0 (c :: cur)
      end
  end.

Definition split (sep s : str) : list str := split_from sep s 0 [].

(** [s.replace(old, '', 1)]: the first occurrence of [old] removed. *)
Fixpoint remove_first (old s : str) : str :=
  if startswith old s then skipn (List.length old) s
  else match s with
       | [] => []
       | c :: s' => c :: remove_first old s'
       end.

(** [str(n)] of an integer. *)
Definition str_of_int (n : Z) : str := lit (NilZero.string_of_int (Z.to_int n)).

(** [range(a, b)] *)
Definition range (a b : Z) : list Z :=
  map (fun k => (a + Z.of_nat k)%Z) (seq 0 (Z.to_nat (b - a))).

(** [any(k in s for k in keywords)] *)
Definition any_in (keywords : list str) (s : str) : bool :=
  existsb (fun k => contains k s) keywords.

(** Truth value of a string: non-empty. *)
Definition truthy (s : str) : bool :=
  match s with [] => false | _ :: _ => true end.

Definition eqb (a b : str) : bool :=
  if list_eq_dec ascii_dec a b then true else false.

End Py.

Import Py.

(** ** Exceptions

    A computation of the source either returns a value or raises. *)

Inductive pyexc : Type :=
| IndexError | KeyError | TypeError | AttributeError | ValueError
| JSONDecodeError | Timeout | ConnectionError.

Inductive exc (A : Type) : Type :=
| Ok (a : A)
| Raise (e : pyexc).

Arguments Ok {A} a.
Arguments Raise {A} e.

Definition bind {A B : Type} (m : exc A) (k : A -> exc B) : exc B :=
  match m with
  | Ok a => k a
  | Raise e => Raise e
  end.

Notation "x <- m ;; k" := (bind m (fun x => k))
  (at level 61, m at next level, right associativity).

(** [l[i]] for an index [i >= 0]. *)
Definition getitem {A : Type} (l : list A) (i : nat) : exc A :=
  match nth_error l i with
  | Some x => Ok x
  | None => Raise IndexError
  end.

(** ** Data model: the profile dictionary

    A key of [education] or [experience] that the locator did not set is
    [None]; [{}] is the record with every key absent. *)

Record Education : Type := { degree : option str; year : option Z }.

Record Experience : Type := { title : option str }.

Record CandidateProfile : Type := {
  education : Education;
  experience : Experience;
  skills : list str;
  hobbies : list str;
  certifications : list str;
  projects : list str;
  introduction : str
}.

(** ** services/resume_processor.py *)

Definition education_keywords : list str :=
  [lit "education"; lit "degree"; lit "university"; lit "college";
   lit "bachelor"; lit "master"; lit "phd"; lit "graduation"].

(** [for year in range(2000, 2030): if str(year) in line: ...; break] *)
Fixpoint first_year (line : str) (years : list Z) : option Z :=
  match years with
  | [] => None
  | y :: rest =>
      if contains (str_of_int y) line then Some y else first_year line rest
  end.

Fixpoint education_loop (lines : list str) : Education :=
  match lines with
  | [] => {| degree := None; year := None |}
  | line :: rest =>
      if any_in education_keywords (lower line)
      then {| degree := Some (strip line);
              year := first_year line (range 2000 2030) |}
      else education_loop rest
  end.

Definition _extract_education (text_lower : str) (lines : list str)
  : exc Education :=
  Ok (education_loop lines).

Definition experience_keywords : list str :=
  [lit "experience"; lit "work"; lit "employment"; lit "job";
   lit "position"; lit "role"].

(** The loop over [enumerate(lines)]: [rest] is what is left of [lines]
    from index [i] on. *)
Fixpoint experience_loop (lines : list str) (i : nat) (rest : list str)
  : exc Experience :=
  match rest with
  | [] => Ok {| title := None |}
  | line :: rest' =>
      if any_in experience_keywords (lower line)
      then
        if i + 1 <? List.length lines
        then
          next <- getitem lines (i + 1) ;;
          Ok {| title :=
                  Some (if truthy (strip next) then strip next else []) |}
        else Ok {| title := None |}
      else experience_loop lines (i + 1) rest'
  end.

Definition _extract_experience (text_lower : str) (lines : list str)
  : exc Experience :=
  experience_loop lines 0 lines.

Definition common_skills : list str :=
  [lit "python"; lit "java"; lit "javascript"; lit "sql"; lit "mongodb";
   lit "postgresql"; lit "fastapi"; lit "flask"; lit "django"; lit "react";
   lit "node.js"; lit "aws"; lit "docker"; lit "git"; lit "linux";
   lit "data analysis"; lit "machine learning"; lit "deep learning";
   lit "tensorflow"; lit "pytorch"; lit "pandas"; lit "numpy";
   lit "scikit-learn"].

Definition skills_keywords : list str :=
  [lit "skills"; lit "technical skills"; lit "competencies"].

(** The first loop of [_extract_skills]: the value of [skills_text]. *)
Fixpoint skills_text_loop (keywords : list str) (text_lower resume_text : str)
  : str :=
  match keywords with
  | [] => []
  | keyword :: rest =>
      if contains keyword text_lower
      then
        let idx := find keyword text_lower in
        lower (slice resume_text idx (idx + 500))
      else skills_text_loop rest text_lower resume_text
  end.

(** The second loop: the list [skills] before [list(set(skills))]. *)
Definition matched_skills (text_lower skills_text : str) : list str :=
  map Py.title
    (filter (fun skill => contains skill text_lower || contains skill skills_text)
       common_skills).

(** [list(set(l))] lists each element of [l] once, in an order the
    language does not fix: [set_order] is that enumeration. *)
Definition set_enumeration (set_order : list str -> list str) : Prop :=
  forall l, NoDup (set_order l) /\ forall x, In x (set_order l) <-> In x l.

Definition _extract_skills (set_order : list str -> list str)
  (text_lower resume_text : str) : exc (list str) :=
  let skills_text := skills_text_loop skills_keywords text_lower resume_text in
  Ok (set_order (matched_skills text_lower skills_text)).

Definition cert_keywords : list str :=
  [lit "certification"; lit "certificate"; lit "certified"; lit "aws";
   lit "google"; lit "microsoft"].

Fixpoint certifications_loop (lines : list str) : list str :=
  match lines with
  | [] => []
  | line :: rest =>
      if any_in cert_keywords (lower line)
      then
        let cert := strip line in
        if 5 <? List.length cert
        then cert :: certifications_loop rest
        else certifications_loop rest
      else certifications_loop rest
  end.

Definition _extract_certifications (text_lower : str) (lines : list str)
  : exc (list str) :=
  Ok (firstn 5 (certifications_loop lines)).

Definition project_keywords : list str :=
  [lit "project"; lit "projects"; lit "portfolio"].

(** The inner loop over [j]: [js] is what is left of the range and
    [projects] the list collected so far. *)
Fixpoint projects_inner (lines : list str) (js : list nat) (projects : list str)
  : exc (list str) :=
  match js with
  | [] => Ok projects
  | j :: js' =>
      line <- getitem lines j ;;
      let projects :=
        if truthy (strip line) && (10 <? List.length (strip line))
        then projects ++ [strip line]
        else projects in
      if 5 <=? List.length projects
      then Ok projects
      else projects_inner lines js' projects
  end.

Fixpoint projects_loop (lines : list str) (i : nat) (rest : list str)
  : exc (list str) :=
  match rest with
  | [] => Ok []
  | line :: rest' =>
      if any_in project_keywords (lower line)
      then
        let stop := Nat.min (i + 10) (List.length lines) in
        projects_inner lines (seq (i + 1) (stop - (i + 1))) []
      else projects_loop lines (i + 1) rest'
  end.

Definition _extract_projects (text_lower : str) (lines : list str)
  : exc (list str) :=
  projects <- projects_loop lines 0 lines ;;
  Ok (firstn 5 projects).

Definition hobby_keywords : list str :=
  [lit "hobbies"; lit "interests"; lit "hobby"; lit "interest"].

Fixpoint hobbies_loop (lines : list str) : exc (list str) :=
  match lines with
  | [] => Ok []
  | line :: rest =>
      if any_in hobby_keywords (lower line)
      then
        let parts := split (lit ":") line in
        if 1 <? List.length parts
        then
          part <- getitem parts 1 ;;
          let hobby_list := map strip (split (lit ",") part) in
          Ok (firstn 5 hobby_list)
        else Ok []
      else hobbies_loop rest
  end.

Definition _extract_hobbies (text_lower : str) (lines : list str)
  : exc (list str) :=
  hobbies_loop lines.

Definition intro_keywords : list str :=
  [lit "summary"; lit "introduction"; lit "about"; lit "profile";
   lit "objective"].

(** [for kw in intro_keywords: intro = intro.replace(kw, '', 1)] *)
Definition strip_keywords (intro : str) : str :=
  fold_left (fun acc kw => remove_first kw acc) intro_keywords intro.

(** The loop over the keywords: [Some] is the value returned from inside
    the loop, [None] means that the loop ended without returning. *)
Fixpoint introduction_loop (keywords : list str) (resume_text text_lower : str)
  : option str :=
  match keywords with
  | [] => None
  | keyword :: rest =>
      if contains keyword text_lower
      then
        let idx := find keyword text_lower in
        let intro := strip (slice resume_text idx (idx + 300)) in
        let intro := strip_keywords intro in
        let intro := strip intro in
        let intro :=
          if startswith (lit ":") intro
          then strip (slice intro 1 (Z.of_nat (List.length intro)))
          else intro in
        Some (slice intro 0 500)
      else introduction_loop rest resume_text text_lower
  end.

Definition paragraph_break : str := ["010"; "010"]%char.

Definition _extract_introduction (resume_text text_lower : str) : exc str :=
  match introduction_loop intro_keywords resume_text text_lower with
  | Some intro => Ok intro
  | None =>
      first_paragraph <-
        (if contains paragraph_break resume_text
         then getitem (split paragraph_break resume_text) 0
         else Ok (slice resume_text 0 300)) ;;
      Ok (slice (strip first_paragraph) 0 500)
  end.

(** The locator methods that [_extract_with_rules] reaches through
    [self]. *)
Record Locators : Type := {
  education_of : str -> list str -> exc Education;
  experience_of : str -> list str -> exc Experience;
  skills_of : str -> str -> exc (list str);
  certifications_of : str -> list str -> exc (list str);
  projects_of : str -> list str -> exc (list str);
  hobbies_of : str -> list str -> exc (list str);
  introduction_of : str -> str -> exc str
}.

Definition newline : str := ["010"%char].

Definition _extract_with_rules (self : Locators) (resume_text : str)
  : exc CandidateProfile :=
  let text_lower := lower resume_text in
  let lines := split newline resume_text in
  education <- education_of self text_lower lines ;;
  experience <- experience_of self text_lower lines ;;
  skills <- skills_of self text_lower resume_text ;;
  certifications <- certifications_of self text_lower lines ;;
  projects <- projects_of self text_lower lines ;;
  hobbies <- hobbies_of self text_lower lines ;;
  introduction <- introduction_of self resume_text text_lower ;;
  Ok {| education := education;
        experience := experience;
        skills := skills;
        hobbies := hobbies;
        certifications := certifications;
        projects := projects;
        introduction := introduction |}.

(** The body is [return None] inside a [try]. *)
Definition _extract_with_hf_api (resume_text : str)
  : exc (option CandidateProfile) :=
  Ok None.

(** The profile returned by the [except] branch of [process_resume]. *)
Definition minimal_profile (resume_text : str) : CandidateProfile :=
  {| education := {| degree := None; year := None |};
     experience := {| title := None |};
     skills := [];
     hobbies := [];
     certifications := [];
     projects := [];
     introduction :=
       if truthy resume_text then slice resume_text 0 500 else [] |}.

(** [hf_api_key] is the value of the environment variable, [None] when
    it is not set. *)
Definition process_resume (self : Locators) (hf_api_key : option str)
  (resume_text : str) : CandidateProfile :=
  let through_api : option CandidateProfile :=
    match hf_api_key with
    | Some (_ :: _) =>
        match _extract_with_hf_api resume_text with
        | Ok (Some extracted_data) => Some extracted_data
        | Ok None => None
        | Raise _ => None
        end
    | _ => None
    end in
  match through_api with
  | Some extracted_data => extracted_data
  | None =>
      match _extract_with_rules self resume_text with
      | Ok profile => profile
      | Raise _ => minimal_profile resume_text
      end
  end.

(** The methods of the class itself. *)
Definition ResumeProcessor (set_order : list str -> list str) : Locators :=
  {| education_of := _extract_education;
     experience_of := _extract_experience;
     skills_of := _extract_skills set_order;
     certifications_of := _extract_certifications;
     projects_of := _extract_projects;
     hobbies_of := _extract_hobbies;
     introduction_of := _extract_introduction |}.

(** ** services/qa_service.py *)

(** [_create_prompt]: the template with [context] and [question] filled
    in. *)
Definition _create_prompt (question context : str) : str :=
  lit "Based on the following candidate information, answer the question accurately and concisely."
  ++ newline ++ newline
  ++ lit "Candidate Information:" ++ newline
  ++ context ++ newline ++ newline
  ++ lit "Question: " ++ question ++ newline ++ newline
  ++ lit "Answer:".

(** *** The three regular expressions *)

Definition next_is_word (s : str) : bool :=
  match s with
  | [] => false
  | c :: _ => is_word c
  end.

(** [\b(19|20)\d{2}\b] tried at one position: [prev_word] tells whether
    the character before the position is a word character, [s] is the
    text from the position on.  The value is group 1 of the match. *)
Definition match_year (prev_word : bool) (s : str) : option str :=
  match s with
  | c1 :: c2 :: d1 :: d2 :: rest =>
      if xorb prev_word (is_word c1)
         && (Py.eqb [c1; c2] (lit "19") || Py.eqb [c1; c2] (lit "20"))
         && is_digit d1 && is_digit d2
         && xorb (is_word d2) (next_is_word rest)
      then Some [c1; c2]
      else None
  | _ => None
  end.

(** [re.findall(r'\b(19|20)\d{2}\b', s)]: the pattern has one group, so
    the list holds group 1 of every match, left to right, matches not
    overlapping.  [skip] counts the characters of the last match still to
    pass over. *)
Fixpoint findall_year_from (prev_word : bool) (s : str) (skip : nat)
  : list str :=
  match s with
  | [] => []
  | c :: s' =>
      match skip with
      | S k => findall_year_from (is_word c) s' k
      | O =>
          match match_year prev_word s with
          | Some group1 => group1 :: findall_year_from (is_word c) s' 3
          | None => findall_year_from (is_word c) s' 0
          end
      end
  end.

Definition findall_year (s : str) : list str := findall_year_from false s 0.

(** A literal of a pattern compiled with [re.IGNORECASE], at the head of
    [s]; the value is the text after it.  Over the code points of this
    development, U+0000 to U+00FF, a character of the text matches a
    character of the pattern when their lower-case forms agree.  The
    letters that [re.IGNORECASE] matches besides (U+017F for s, U+0130
    and U+0131 for i, U+212A for k) lie outside this range, so a statement
    that is meant for every text speaks of the places where the literal
    matches, not of the places where it occurs. *)
Fixpoint match_literal_ignorecase (p s : str) : option str :=
  match p, s with
  | [] , _ => Some s
  | _ :: _, [] => None
  | a :: p', b :: s' =>
      if Ascii.eqb (lower_char a) (lower_char b)
      then match_literal_ignorecase p' s'
      else None
  end.

Definition is_newline (c : ascii) : bool := Ascii.eqb c "010"%char.

(** The longest run of characters that are not [c]. *)
Fixpoint up_to (stop : ascii -> bool) (s : str) : str :=
  match s with
  | [] => []
  | c :: s' => if stop c then [] else c :: up_to stop s'
  end.

(** [\s*([^\n]+)] at the head of [s].  [\s*] takes the whole run of white
    space when a character follows it; when the text ends with the run, it
    gives characters back until the one it gives back is not a newline.
    The value is group 1. *)
Fixpoint match_skills_tail (s : str) : option str :=
  match s with
  | [] => None
  | c :: s' =>
      if is_space c
      then
        match match_skills_tail s' with
        | Some group1 => Some group1
        | None => if is_newline c then None else Some (up_to is_newline s)
        end
      else Some (up_to is_newline s)
  end.

(** [re.search(r'skills:\s*([^\n]+)', s, re.IGNORECASE)]: group 1 of the
    leftmost match. *)
Fixpoint search_skills (s : str) : option str :=
  match
    match match_literal_ignorecase (lit "skills:") s with
    | Some tail => match_skills_tail tail
    | None => None
    end
  with
  | Some group1 => Some group1
  | None =>
      match s with
      | [] => None
      | _ :: s' => search_skills s'
      end
  end.

Definition is_close_brace (c : ascii) : bool := Ascii.eqb c "}"%char.

(** [\s*({[^}]+})] at the head of [s]: the value is group 1. *)
Definition match_experience_tail (s : str) : option str :=
  match lstrip s with
  | "{"%char :: body =>
      let inner := up_to is_close_brace body in
      match inner, skipn (List.length inner) body with
      | _ :: _, "}"%char :: _ => Some ("{"%char :: inner ++ ["}"%char])
      | _, _ => None
      end
  | _ => None
  end.

(** [re.search(r'experience:\s*({[^}]+})', s)] *)
Fixpoint search_experience (s : str) : option str :=
  match
    if startswith (lit "experience:") s
    then match_experience_tail (skipn 11 s)
    else None
  with
  | Some group1 => Some group1
  | None =>
      match s with
      | [] => None
      | _ :: s' => search_experience s'
      end
  end.

Definition graduation_unavailable : str :=
  lit "The graduation date information is not explicitly available in the candidate's data.".

Definition skills_pointer : str :=
  lit "Please check the skills section in the candidate's profile for detailed information.".

Definition experience_pointer : str :=
  lit "Please check the experience section in the candidate's profile for work history details.".

Definition could_not_answer : str :=
  lit "I couldn't generate a proper answer. Please check the candidate's profile or try rephrasing your question.".

Definition _fallback_answer (prompt : str) : str :=
  let prompt_lower := lower prompt in
  if contains (lit "graduation") prompt_lower
     || contains (lit "graduate") prompt_lower
  then
    match
      if contains (lit "education") prompt_lower
      then
        match rev (findall_year prompt) with
        | last_year :: _ =>
            Some (lit "The candidate finished graduation in "
                  ++ last_year ++ lit ".")
        | [] => None
        end
      else None
    with
    | Some answer => answer
    | None => graduation_unavailable
    end
  else if contains (lit "skill") prompt_lower
  then
    match
      if contains (lit "skills:") prompt_lower
      then
        match search_skills prompt_lower with
        | Some skills_text =>
            Some (lit "The candidate has the following skills: " ++ skills_text)
        | None => None
        end
      else None
    with
    | Some answer => answer
    | None => skills_pointer
    end
  else if contains (lit "experience") prompt_lower
          || contains (lit "work") prompt_lower
  then
    match
      if contains (lit "experience:") prompt_lower
      then
        match search_experience prompt_lower with
        | Some fragment =>
            Some (lit "Based on the candidate's experience: " ++ fragment)
        | None => None
        end
      else None
    with
    | Some answer => answer
    | None => experience_pointer
    end
  else could_not_answer.

(** *** The call of the hosted model *)

(** A decoded JSON document. *)
#[warnings="-register-all"]
Inductive json : Type :=
| JNull
| JBool (b : bool)
| JInt (n : Z)
| JFloat (bits : Z)
| JStr (s : str)
| JList (items : list json)
| JDict (entries : list (str * json)).

Fixpoint lookup (key : str) (entries : list (str * json)) : option json :=
  match entries with
  | [] => None
  | (k, v) :: rest => if Py.eqb k key then Some v else lookup key rest
  end.

(** [key in v] *)
Definition py_in (key : str) (v : json) : exc bool :=
  match v with
  | JDict entries =>
      Ok (match lookup key entries with Some _ => true | None => false end)
  | JStr s => Ok (contains key s)
  | JList items =>
      Ok (existsb
            (fun item =>
               match item with JStr s => Py.eqb s key | _ => false end)
            items)
  | _ => Raise TypeError
  end.

(** [v[key]] for a string [key] *)
Definition py_getitem (v : json) (key : str) : exc json :=
  match v with
  | JDict entries =>
      match lookup key entries with
      | Some x => Ok x
      | None => Raise KeyError
      end
  | _ => Raise TypeError
  end.

(** [v.strip()] *)
Definition py_strip (v : json) : exc str :=
  match v with
  | JStr s => Ok (strip s)
  | _ => Raise AttributeError
  end.

Definition is_dict (v : json) : bool :=
  match v with JDict _ => true | _ => false end.

(** What [requests.post] does: it raises, or it returns a response with
    a status code, a body text and the outcome of [response.json()]. *)
Inductive PostOutcome : Type :=
| PostRaises (e : pyexc)
| PostReturns (status_code : Z) (text : str) (decoded : exc json).

Definition timed_out : str := lit "Request timed out. Please try again.".

Definition model_loading : str :=
  lit "The AI model is currently loading. Please try again in a few seconds.".

Definition no_proper_answer : str :=
  lit "I couldn't generate a proper answer. Please try rephrasing your question.".

Section HostedModel.

(** [str(v)] of a decoded JSON value. *)
Variable py_str : json -> str.

(** The branch [response.status_code == 200]. *)
Definition read_result (result : json) : exc str :=
  from_first <-
    match result with
    | JList (first :: _) =>
        has_generated <- py_in (lit "generated_text") first ;;
        if has_generated
        then
          v <- py_getitem first (lit "generated_text") ;;
          answer <- py_strip v ;;
          Ok (Some answer)
        else
          has_text <-
            (if is_dict first then py_in (lit "text") first else Ok false) ;;
          if has_text
          then
            v <- py_getitem first (lit "text") ;;
            answer <- py_strip v ;;
            Ok (Some answer)
          else Ok None
    | _ => Ok None
    end ;;
  match from_first with
  | Some answer => Ok answer
  | None =>
      match result with
      | JStr s => Ok (strip s)
      | JList (first :: _) => Ok (strip (py_str first))
      | _ => Ok no_proper_answer
      end
  end.

(** The body of the [try] of [_call_hf_api]. *)
Definition call_body (post : PostOutcome) (prompt : str) : exc str :=
  match post with
  | PostRaises e => Raise e
  | PostReturns status_code text decoded =>
      if (status_code =? 200)%Z
      then result <- decoded ;; read_result result
      else if (status_code =? 503)%Z
      then Ok model_loading
      else Ok (_fallback_answer prompt)
  end.

Definition _call_hf_api (post : PostOutcome) (prompt : str) : exc str :=
  match call_body post prompt with
  | Ok answer => Ok answer
  | Raise Timeout => Ok timed_out
  | Raise _ => Ok (_fallback_answer prompt)
  end.

End HostedModel.

(** ** Vocabulary of the statements, and sample inputs *)

(** Some locator raises on the arguments that [_extract_with_rules] gives
    it. *)
Definition some_locator_raises (self : Locators) (resume_text : str) : Prop :=
  let text_lower := lower resume_text in
  let lines := split newline resume_text in
  (exists e, education_of self text_lower lines = Raise e)
  \/ (exists e, experience_of self text_lower lines = Raise e)
  \/ (exists e, skills_of self text_lower resume_text = Raise e)
  \/ (exists e, certifications_of self text_lower lines = Raise e)
  \/ (exists e, projects_of self text_lower lines = Raise e)
  \/ (exists e, hobbies_of self text_lower lines = Raise e)
  \/ (exists e, introduction_of self resume_text text_lower = Raise e).

(** A processor whose hobbies locator raises. *)
Definition broken_hobbies : Locators :=
  {| education_of := _extract_education;
     experience_of := _extract_experience;
     skills_of := _extract_skills (fun l => l);
     certifications_of := _extract_certifications;
     projects_of := _extract_projects;
     hobbies_of := fun _ _ => Raise IndexError;
     introduction_of := _extract_introduction |}.

(** [before ++ line :: after] are the lines of a text, [line] being the
    first one that holds a keyword of the list. *)
Definition first_match (keywords : list str)
  (before : list str) (line : str) : Prop :=
  (forall l, In l before -> any_in keywords (lower l) = false)
  /\ any_in keywords (lower line) = true.

Definition spec_education_line : str :=
  lit "Bachelor of Science, 2018, Education".

Definition two_year_line : str :=
  lit "B.Sc., State University, 2021 (enrolled 2017)".

Definition blank_after_heading : str :=
  lit "Jane Roe" ++ newline ++ lit "Work Experience" ++ newline
  ++ lit "   " ++ newline ++ lit "Acme Corp".

Definition long_enough (line : str) : bool := 10 <? List.length line.

(** A heading, nine short lines, and a long tenth line after them. *)
Definition tenth_line_text : str :=
  lit "Projects" ++ newline
  ++ lit "a" ++ newline ++ lit "b" ++ newline ++ lit "c" ++ newline
  ++ lit "d" ++ newline ++ lit "e" ++ newline ++ lit "f" ++ newline
  ++ lit "g" ++ newline ++ lit "h" ++ newline ++ lit "i" ++ newline
  ++ lit "Resume parser in Python".

Definition nine_short_lines : list str :=
  [lit "a"; lit "b"; lit "c"; lit "d"; lit "e"; lit "f"; lit "g"; lit "h";
   lit "i"].

(** 299 letters, a space, and one more letter. *)
Definition space_at_300 : str := repeat "x"%char 299 ++ lit " y".

(** The 500-character window that follows the first skills heading, in
    lower case; empty when the text has no such heading. *)
Definition skills_window (resume_text : str) : str :=
  skills_text_loop skills_keywords (lower resume_text) resume_text.

(** Two listing orders of a set: first occurrences, and the same
    reversed. *)
Definition first_occurrences (l : list str) : list str :=
  nodup (list_eq_dec ascii_dec) l.

Definition last_to_first (l : list str) : list str :=
  rev (first_occurrences l).

Definition skills_text_sample : str :=
  lit "Skills: PYTHON, Python, sql and Node.js".

Definition skills_prompt : str :=
  _create_prompt (lit "what skills") (lit "Skills: Python, SQL").

Definition century (group1 : str) : Prop :=
  group1 = lit "19" \/ group1 = lit "20".

Definition double_quote : str := ["034"%char].

(** The context line that [_prepare_context] writes for the education
    mapping with degree "B.Sc. Computer Science, 2018" and year 2018. *)
Definition education_context : str :=
  lit "Education: {" ++ double_quote ++ lit "degree" ++ double_quote
  ++ lit ": " ++ double_quote ++ lit "B.Sc. Computer Science, 2018"
  ++ double_quote ++ lit ", " ++ double_quote ++ lit "year" ++ double_quote
  ++ lit ": 2018}".

Definition graduation_prompt : str :=
  _create_prompt (lit "When did the candidate graduate?") education_context.

Definition skills_marker : str := lit "Skills: Python, SQL".

(** The first place, counted from [i], at which the literal [p] of a
    pattern compiled with [re.IGNORECASE] matches in [s]: no match of the
    pattern starts before it. *)
Fixpoint first_literal_match (p s : str) (i : nat) : option nat :=
  match match_literal_ignorecase p s with
  | Some _ => Some i
  | None =>
      match s with
      | [] => None
      | _ :: s' => first_literal_match p s' (S i)
      end
  end.

(** The prompt for a context whose introduction line says "skills:" before
    the skills line does. *)
Definition introduction_skills_prompt : str :=
  _create_prompt (lit "what skills")
    (lit "Introduction: Key skills: teamwork" ++ newline
     ++ lit "Skills: Python, SQL").

(** ** The rest of the two services, and their callers in [main.py] *)

(** [sep.join(parts)] *)
Fixpoint join (sep : str) (parts : list str) : str :=
  match parts with
  | [] => []
  | [p] => p
  | p :: rest => p ++ sep ++ join sep rest
  end.

(** A call that returns a value or raises an exception [e]; [message] is
    [str(e)]. *)
Inductive outcome (A : Type) : Type :=
| Returned (a : A)
| Failed (message : str).

Arguments Returned {A} a.
Arguments Failed {A} message.

Section TextNormalizer.

(** The document libraries: the texts of the pages of a PDF document, in
    order ([PdfReader(...).pages] and [extract_text] of each page), and
    the texts of the paragraphs of a DOCX document. *)
Variable pdf_pages : list Byte.byte -> outcome (list str).
Variable docx_paragraphs : list Byte.byte -> outcome (list str).

(** The [except] branch logs and raises the same exception again. *)
Definition _extract_from_pdf (file_content : list Byte.byte) : outcome str :=
  match pdf_pages file_content with
  | Returned pages =>
      Returned
        (strip (fold_left (fun text page => text ++ page ++ newline) pages []))
  | Failed message => Failed message
  end.

Definition _extract_from_docx (file_content : list Byte.byte) : outcome str :=
  match docx_paragraphs file_content with
  | Returned paragraphs => Returned (strip (join newline paragraphs))
  | Failed message => Failed message
  end.

Definition extract_text (file_content : list Byte.byte) (file_ext : str)
  : outcome str :=
  match
    if Py.eqb file_ext (lit "pdf") then _extract_from_pdf file_content
    else if Py.eqb file_ext (lit "docx") then _extract_from_docx file_content
    else Failed (lit "Unsupported file type: " ++ file_ext)
  with
  | Returned text => Returned text
  | Failed message =>
      Failed (lit "Failed to extract text from file: " ++ message)
  end.

End TextNormalizer.

(** [upload_resume]: [file.filename.split('.')[-1].lower()] *)
Definition upload_file_ext (filename : str) : str :=
  lower (last (split (lit ".") filename) []).

(** [upload_resume]: the two checks that come before the file is read;
    [false] is the answer with status 400. *)
Definition upload_accepts (filename : str) : bool :=
  truthy filename
  && (Py.eqb (upload_file_ext filename) (lit "pdf")
      || Py.eqb (upload_file_ext filename) (lit "docx")).

(** [get_candidates]: the introduction shown in the list,
    [intro[:200] + "..." if len(intro) > 200 else intro]. *)
Definition listed_introduction (intro : str) : str :=
  if 200 <? List.length intro then slice intro 0 200 ++ lit "..." else intro.

(** *** [json.dumps] of the two mappings *)

Definition hex_digit (n : N) : ascii :=
  if (n <? 10)%N then ascii_of_N (48 + n) else ascii_of_N (87 + n).

(** One character of a string, as [json.dumps] writes it with
    [ensure_ascii]: the characters from the space to the tilde stand for
    themselves, but for the quote and the backslash. *)
Definition json_escape (c : ascii) : str :=
  let backslash := "092"%char in
  if (code c =? 34)%N then [backslash; "034"%char]
  else if (code c =? 92)%N then [backslash; backslash]
  else if (code c =? 10)%N then [backslash; "n"%char]
  else if (code c =? 13)%N then [backslash; "r"%char]
  else if (code c =? 9)%N then [backslash; "t"%char]
  else if (code c =? 8)%N then [backslash; "b"%char]
  else if (code c =? 12)%N then [backslash; "f"%char]
  else if between 32 126 c then [c]
  else [backslash; "u"%char; "0"%char; "0"%char;
        hex_digit (code c / 16); hex_digit (code c mod 16)].

Definition json_string (s : str) : str :=
  ["034"%char] ++ flat_map json_escape s ++ ["034"%char].

Definition json_member (key value : str) : str :=
  json_string key ++ lit ": " ++ value.

Definition json_object (members : list str) : str :=
  lit "{" ++ join (lit ", ") members ++ lit "}".

(** The keys in the order in which [_extract_education] sets them. *)
Definition dumps_education (e : Education) : str :=
  json_object
    ((match degree e with
      | Some d => [json_member (lit "degree") (json_string d)]
      | None => []
      end)
     ++ (match year e with
         | Some y => [json_member (lit "year") (str_of_int y)]
         | None => []
         end)).

Definition dumps_experience (e : Experience) : str :=
  json_object
    (match title e with
     | Some t => [json_member (lit "title") (json_string t)]
     | None => []
     end).

(** Truth value of a mapping: some key is set. *)
Definition education_set (e : Education) : bool :=
  match degree e, year e with
  | None, None => false
  | _, _ => true
  end.

Definition experience_set (e : Experience) : bool :=
  match title e with
  | None => false
  | Some _ => true
  end.

(** [if value: context_parts.append(label + rendering)] *)
Definition context_part (present : bool) (label rendering : str) : list str :=
  if present then [label ++ rendering] else [].

Definition nonempty {A : Type} (l : list A) : bool :=
  match l with [] => false | _ :: _ => true end.

(** [_prepare_context] for the mapping that [upload_resume] stores. *)
Definition _prepare_context (candidate_data : CandidateProfile) : str :=
  let context_parts :=
    context_part (truthy (introduction candidate_data))
      (lit "Introduction: ") (introduction candidate_data)
    ++ context_part (education_set (education candidate_data))
         (lit "Education: ") (dumps_education (education candidate_data))
    ++ context_part (experience_set (experience candidate_data))
         (lit "Experience: ") (dumps_experience (experience candidate_data))
    ++ context_part (nonempty (skills candidate_data))
         (lit "Skills: ") (join (lit ", ") (skills candidate_data))
    ++ context_part (nonempty (certifications candidate_data))
         (lit "Certifications: ")
         (join (lit ", ") (certifications candidate_data))
    ++ context_part (nonempty (projects candidate_data))
         (lit "Projects: ") (join (lit ", ") (projects candidate_data))
    ++ context_part (nonempty (hobbies candidate_data))
         (lit "Hobbies: ") (join (lit ", ") (hobbies candidate_data)) in
  join newline context_parts.

Section AnswerQuestion.

Variable py_str : json -> str.

(** [str(e)] of a caught exception. *)
Variable exc_text : pyexc -> str.

Definition answer_question (post : PostOutcome) (question : str)
  (candidate_data : CandidateProfile) : outcome str :=
  let context := _prepare_context candidate_data in
  let prompt := _create_prompt question context in
  match _call_hf_api py_str post prompt with
  | Ok answer => Returned answer
  | Raise e => Failed (lit "Failed to generate answer: " ++ exc_text e)
  end.

End AnswerQuestion.

(** ** Vocabulary of the further statements *)

(** No white space at the start; none at either end. *)
Definition no_leading_space (s : str) : Prop := lstrip s = s.

Definition trimmed (s : str) : Prop := strip s = s.

(** The character does not occur in the string. *)
Definition lacks (c : ascii) (s : str) : Prop := ~ In c s.

(** A year of the two centuries, as four characters. *)
Definition year_token (y : str) : Prop :=
  exists c1 c2 d1 d2,
    y = [c1; c2; d1; d2]
    /\ century [c1; c2] /\ is_digit d1 = true /\ is_digit d2 = true.

(** The text ends, and the text starts, with no word character. *)
Definition ends_off_word (s : str) : Prop :=
  next_is_word (rev s) = false.

Definition starts_off_word (s : str) : Prop :=
  next_is_word s = false.

(** A certification or a project that a locator may return: the trimmed
    text of a line, longer than [n] characters. *)
Definition trimmed_line_over (n : nat) (lines : list str) (entry : str) : Prop :=
  n < List.length entry
  /\ trimmed entry
  /\ exists line, In line lines /\ entry = strip line.

(** A stored profile with skills, an experience title and a hobby. *)
Definition python_profile : CandidateProfile :=
  {| education := {| degree := None; year := None |};
     experience := {| title := Some (lit "Data Engineer") |};
     skills := [lit "Python"; lit "Sql"];
     hobbies := [lit "chess"];
     certifications := [];
     projects := [];
     introduction := lit "Jane Roe" |}.

(** A stored profile whose education has a degree and a year. *)
Definition year_profile : CandidateProfile :=
  {| education :=
       {| degree := Some (lit "B.Sc. Computer Science, 2018");
          year := Some 2018%Z |};
     experience := {| title := None |};
     skills := [];
     hobbies := [];
     certifications := [];
     projects := [];
     introduction := lit "Jane Roe" |}.

(** Group 1 of the experience pattern: an opening brace, a text without a
    closing brace that is not empty, and a closing brace; a piece of the
    text searched. *)
Definition brace_fragment (text g : str) : Prop :=
  exists inner,
    g = "{"%char :: inner ++ ["}"%char]
    /\ inner <> []
    /\ Forall (fun c => is_close_brace c = false) inner
    /\ exists a b, text = a ++ g ++ b.

(** A stored profile with an experience title and a hobby, and no
    skills. *)
Definition title_profile : CandidateProfile :=
  {| education := {| degree := None; year := None |};
     experience := {| title := Some (lit "Data Engineer {Acme}") |};
     skills := [];
     hobbies := [lit "chess"];
     certifications := [];
     projects := [];
     introduction := lit "Jane Roe" |}.

(** * Properties *)

(** ** Strings *)

Lemma eqb_true_iff (a b : str) : Py.eqb a b = true <-> a = b.
Proof.
  unfold Py.eqb. destruct (list_eq_dec ascii_dec a b); split; congruence.
Qed.

Lemma startswith_app (p s : str) : startswith p (p ++ s) = true.
Proof.
  induction p as [|a p IH]; simpl; [reflexivity|].
  now rewrite Ascii.eqb_refl.
Qed.

Lemma startswith_true (p s : str) :
  startswith p s = true -> exists t, s = p ++ t.
Proof.
  revert s. induction p as [|a p IH]; intros s H.
  - now exists s.
  - destruct s as [|b s]; simpl in H; [discriminate|].
    apply andb_true_iff in H. destruct H as [Hab Hps].
    apply Ascii.eqb_eq in Hab. subst b.
    destruct (IH _ Hps) as [t ->]. now exists t.
Qed.

Lemma contains_here (sub s : str) :
  startswith sub s = true -> contains sub s = true.
Proof. intros H. destruct s; simpl; now rewrite H. Qed.

Lemma contains_app (sub a b : str) : contains sub (a ++ sub ++ b) = true.
Proof.
  induction a as [|c a IH].
  - cbn [app]. apply contains_here, startswith_app.
  - cbn [app contains]. rewrite IH. apply orb_true_r.
Qed.

Lemma contains_true (sub s : str) :
  contains sub s = true -> exists a b, s = a ++ sub ++ b.
Proof.
  induction s as [|c s IH]; simpl; intros H.
  - rewrite orb_false_r in H. apply startswith_true in H.
    destruct H as [t ->]. now exists [], t.
  - apply orb_true_iff in H. destruct H as [H|H].
    + apply startswith_true in H. destruct H as [t ->]. now exists [], t.
    + destruct (IH H) as (a & b & ->). now exists (c :: a), b.
Qed.

Lemma lower_app (a b : str) : lower (a ++ b) = lower a ++ lower b.
Proof. apply map_app. Qed.

Lemma slice_from_0 (s : str) (n : Z) :
  (0 <= n)%Z -> slice s 0 n = firstn (Z.to_nat n) s.
Proof.
  intros Hn. unfold slice, clip.
  change (0 <? 0)%Z with false. cbv iota.
  destruct (Z.ltb_spec n 0) as [Hneg|_]; [lia|].
  rewrite (Z.min_l 0) by lia. rewrite Z.sub_0_r.
  change (skipn (Z.to_nat 0) s) with s.
  destruct (Z.le_gt_cases n (Z.of_nat (List.length s))) as [Hle|Hgt].
  - now rewrite Z.min_l by lia.
  - rewrite Z.min_r by lia. rewrite Nat2Z.id.
    rewrite !firstn_all2; trivial; lia.
Qed.

Lemma slice_length_le (s : str) (lo hi n : Z) :
  (0 <= lo)%Z -> (hi = lo + n)%Z -> (0 <= n)%Z ->
  List.length (slice s lo hi) <= Z.to_nat n.
Proof.
  intros Hlo -> Hn. unfold slice.
  rewrite length_firstn.
  etransitivity; [apply Nat.le_min_l|].
  unfold clip.
  destruct (lo <? 0)%Z eqn:E1; [apply Z.ltb_lt in E1; lia|].
  destruct (lo + n <? 0)%Z eqn:E2; [apply Z.ltb_lt in E2; lia|].
  lia.
Qed.

Lemma lstrip_length (s : str) : List.length (lstrip s) <= List.length s.
Proof.
  induction s as [|c s IH]; simpl; [lia|].
  destruct (is_space c); simpl; lia.
Qed.

Lemma strip_length (s : str) : List.length (strip s) <= List.length s.
Proof.
  unfold strip, rstrip. rewrite length_rev.
  etransitivity; [apply lstrip_length|]. rewrite length_rev.
  apply lstrip_length.
Qed.

Lemma remove_first_length (old s : str) :
  List.length (remove_first old s) <= List.length s.
Proof.
  induction s as [|c s IH]; cbn [remove_first].
  - destruct (startswith old []); [rewrite length_skipn|]; lia.
  - destruct (startswith old (c :: s));
      [rewrite length_skipn|]; cbn [List.length]; lia.
Qed.

Lemma split_from_nonempty (sep s : str) (skip : nat) (cur : str) :
  split_from sep s skip cur <> [].
Proof.
  revert skip cur. induction s as [|c s IH]; intros skip cur; simpl.
  - discriminate.
  - destruct skip; [|apply IH].
    destruct (startswith sep (c :: s)); [discriminate|apply IH].
Qed.

Lemma in_range (a b y : Z) : In y (range a b) -> (a <= y < b)%Z.
Proof.
  unfold range. intros H. apply in_map_iff in H.
  destruct H as (k & <- & Hk). apply in_seq in Hk. lia.
Qed.

(** ** The locators never raise *)

Lemma getitem_lt {A : Type} (l : list A) (i : nat) :
  i < List.length l -> exists x, getitem l i = Ok x /\ nth_error l i = Some x.
Proof.
  intros H. unfold getitem. destruct (nth_error l i) as [x|] eqn:E.
  - now exists x.
  - apply nth_error_None in E. lia.
Qed.

Lemma experience_loop_ok (lines rest : list str) (i : nat) :
  exists e, experience_loop lines i rest = Ok e.
Proof.
  revert i. induction rest as [|line rest IH]; intros i; cbn [experience_loop].
  - eauto.
  - destruct (any_in experience_keywords (lower line)); [|apply IH].
    destruct (Nat.ltb_spec (i + 1) (List.length lines)) as [Hlt|_]; [|eauto].
    destruct (getitem_lt lines Hlt) as (x & -> & _). cbn [bind]. eauto.
Qed.

Lemma projects_inner_ok (lines : list str) (js : list nat) (acc : list str) :
  Forall (fun j => j < List.length lines) js ->
  exists r, projects_inner lines js acc = Ok r.
Proof.
  intros H. revert acc.
  induction H as [|j js Hj _ IH]; intros acc; cbn [projects_inner].
  - eauto.
  - destruct (getitem_lt lines Hj) as (x & -> & _). cbn [bind].
    match goal with |- context [if ?c then Ok ?a else _] =>
      destruct c; [eauto|apply IH] end.
Qed.

Lemma projects_loop_ok (lines rest : list str) (i : nat) :
  exists r, projects_loop lines i rest = Ok r.
Proof.
  revert i. induction rest as [|line rest IH]; intros i; cbn [projects_loop].
  - eauto.
  - destruct (any_in project_keywords (lower line)); [|apply IH].
    apply projects_inner_ok. apply Forall_forall. intros j Hj.
    apply in_seq in Hj. lia.
Qed.

Lemma extract_projects_ok (text_lower : str) (lines : list str) :
  exists r, _extract_projects text_lower lines = Ok r /\ List.length r <= 5.
Proof.
  unfold _extract_projects.
  destruct (projects_loop_ok lines lines 0) as [r ->]. cbn [bind].
  eexists; split; [reflexivity|]. rewrite length_firstn. lia.
Qed.

Lemma hobbies_loop_ok (lines : list str) :
  exists r, hobbies_loop lines = Ok r /\ List.length r <= 5.
Proof.
  induction lines as [|line rest IH]; cbn [hobbies_loop].
  - exists []. simpl. split; [reflexivity|lia].
  - destruct (any_in hobby_keywords (lower line)); [|apply IH].
    destruct (Nat.ltb_spec 1 (List.length (split (lit ":") line))) as [Hlt|_].
    + destruct (getitem_lt _ Hlt) as (x & -> & _). cbn [bind].
      eexists; split; [reflexivity|]. rewrite length_firstn. lia.
    + exists []. simpl. split; [reflexivity|lia].
Qed.

Lemma introduction_loop_bound (keywords : list str) (text text_lower intro : str) :
  introduction_loop keywords text text_lower = Some intro ->
  List.length intro <= 500.
Proof.
  induction keywords as [|k rest IH]; cbn [introduction_loop]; [discriminate|].
  destruct (contains k text_lower); [|exact IH].
  match goal with
  | |- Some (slice ?body _ _) = _ -> _ => generalize body
  end.
  intros body H. apply (f_equal (fun o => match o with
                                          | Some x => List.length x
                                          | None => 0
                                          end)) in H.
  cbv beta iota in H. rewrite <- H.
  change 500 with (Z.to_nat 500).
  apply (@slice_length_le body 0 500 500)%Z; lia.
Qed.

Lemma extract_introduction_ok (text text_lower : str) :
  exists intro,
    _extract_introduction text text_lower = Ok intro
    /\ List.length intro <= 500.
Proof.
  unfold _extract_introduction.
  destruct (introduction_loop intro_keywords text text_lower) as [intro|] eqn:E.
  - exists intro. split; [reflexivity|eapply introduction_loop_bound; eauto].
  - assert (exists p,
              (if contains paragraph_break text
               then getitem (split paragraph_break text) 0
               else Ok (slice text 0 300)) = Ok p) as [p ->].
    { destruct (contains paragraph_break text); [|eauto].
      unfold getitem, split.
      destruct (split_from paragraph_break text 0 []) eqn:S;
        cbn [nth_error]; [|eauto].
      now apply split_from_nonempty in S. }
    cbn [bind]. eexists; split; [reflexivity|].
    change 500 with (Z.to_nat 500).
    apply (@slice_length_le (strip p) 0 500 500)%Z; lia.
Qed.

Lemma first_year_in (line : str) (years : list Z) (y : Z) :
  first_year line years = Some y -> In y years.
Proof.
  induction years as [|z rest IH]; cbn [first_year]; [discriminate|].
  destruct (contains (str_of_int z) line).
  - intros [= ->]. now left.
  - intros H. right. auto.
Qed.

Lemma education_loop_year (lines : list str) (y : Z) :
  year (education_loop lines) = Some y -> (2000 <= y <= 2029)%Z.
Proof.
  induction lines as [|line rest IH]; cbn [education_loop]; [discriminate|].
  destruct (any_in education_keywords (lower line)); [|exact IH].
  cbn [year]. intros H. apply first_year_in, in_range in H. lia.
Qed.

(** ** The profile assembler *)

Lemma extract_with_rules_raises (self : Locators) (resume_text : str) :
  some_locator_raises self resume_text ->
  exists e, _extract_with_rules self resume_text = Raise e.
Proof.
  unfold some_locator_raises, _extract_with_rules. intros H.
  destruct (education_of self _ _) as [ed|e1]; cbn [bind]; [|eauto].
  destruct (experience_of self _ _) as [ex|e2]; cbn [bind]; [|eauto].
  destruct (skills_of self _ _) as [sk|e3]; cbn [bind]; [|eauto].
  destruct (certifications_of self _ _) as [ce|e4]; cbn [bind]; [|eauto].
  destruct (projects_of self _ _) as [pr|e5]; cbn [bind]; [|eauto].
  destruct (hobbies_of self _ _) as [ho|e6]; cbn [bind]; [|eauto].
  destruct (introduction_of self _ _) as [it|e7]; cbn [bind]; [|eauto].
  destruct H as [[e H]|[[e H]|[[e H]|[[e H]|[[e H]|[[e H]|[e H]]]]]]];
    discriminate.
Qed.

Lemma process_resume_rules (self : Locators) (key : option str) (text : str) :
  process_resume self key text =
  match _extract_with_rules self text with
  | Ok profile => profile
  | Raise _ => minimal_profile text
  end.
Proof. unfold process_resume. destruct key as [[|c k]|]; reflexivity. Qed.

Lemma minimal_introduction (text : str) :
  introduction (minimal_profile text) = firstn 500 text.
Proof.
  unfold minimal_profile; cbn [introduction].
  destruct text as [|c text]; [reflexivity|].
  cbn [truthy]. now rewrite slice_from_0.
Qed.

(** C1. For every input text, [process_resume] returns a profile: the
    rule-based extraction ends without an exception and its result is
    what is returned; certifications, projects and hobbies have at most 5
    entries, the introduction at most 500 characters, and the education
    year, when set, lies in 2000..2029.  With any locators in place of the
    class's own, if one of them raises the result is the minimal profile:
    introduction the first 500 characters of the input, every other field
    empty. *)
Theorem process_resume_never_raises_and_bounded :
  forall (set_order : list str -> list str) (hf_api_key : option str)
         (resume_text : str),
    let profile :=
      process_resume (ResumeProcessor set_order) hf_api_key resume_text in
    _extract_with_rules (ResumeProcessor set_order) resume_text = Ok profile
    /\ List.length (certifications profile) <= 5
    /\ List.length (projects profile) <= 5
    /\ List.length (hobbies profile) <= 5
    /\ List.length (introduction profile) <= 500
    /\ (forall y, year (education profile) = Some y -> (2000 <= y <= 2029)%Z)
    /\ (forall self : Locators,
          some_locator_raises self resume_text ->
          process_resume self hf_api_key resume_text
          = {| education := {| degree := None; year := None |};
               experience := {| title := None |};
               skills := [];
               hobbies := [];
               certifications := [];
               projects := [];
               introduction := firstn 500 resume_text |}).
Proof.
  intros set_order key text profile.
  assert (Hself : forall self : Locators,
            some_locator_raises self text ->
            process_resume self key text
            = {| education := {| degree := None; year := None |};
                 experience := {| title := None |};
                 skills := [];
                 hobbies := [];
                 certifications := [];
                 projects := [];
                 introduction := firstn 500 text |}).
  { intros self H. rewrite process_resume_rules.
    destruct (extract_with_rules_raises H) as [e ->].
    rewrite <- minimal_introduction. reflexivity. }
  subst profile. rewrite process_resume_rules.
  unfold _extract_with_rules, ResumeProcessor;
    cbn [education_of experience_of skills_of certifications_of projects_of
         hobbies_of introduction_of].
  set (tl := lower text). set (lines := split newline text).
  unfold _extract_education, _extract_experience, _extract_skills,
    _extract_certifications, _extract_hobbies.
  destruct (experience_loop_ok lines lines 0) as [ex ->].
  destruct (extract_projects_ok tl lines) as (pr & -> & Hpr).
  destruct (hobbies_loop_ok lines) as (ho & -> & Hho).
  destruct (extract_introduction_ok text tl) as (it & -> & Hit).
  cbn [bind education certifications projects hobbies introduction].
  refine (conj eq_refl (conj _ (conj Hpr (conj Hho (conj Hit (conj _ Hself)))))).
  - rewrite length_firstn. lia.
  - apply education_loop_year.
Qed.

Lemma process_resume_never_raises_and_bounded_witness :
  process_resume broken_hobbies None (lit "Hobbies: chess")
  = {| education := {| degree := None; year := None |};
       experience := {| title := None |};
       skills := [];
       hobbies := [];
       certifications := [];
       projects := [];
       introduction := lit "Hobbies: chess" |}.
Proof.
  apply (process_resume_never_raises_and_bounded
           (fun l => l) None (lit "Hobbies: chess")).
  unfold some_locator_raises.
  do 5 right. left. exists IndexError. reflexivity.
Defined.

(** ** The first matching line *)

Lemma nth_error_after {A : Type} (done after : list A) (x : A) (k : nat) :
  nth_error (done ++ x :: after) (List.length done + 1 + k) = nth_error after k.
Proof.
  rewrite nth_error_app2 by lia.
  replace (List.length done + 1 + k - List.length done) with (S k) by lia.
  reflexivity.
Qed.

Lemma range_cons (a b : Z) : (a < b)%Z -> range a b = a :: range (a + 1) b.
Proof.
  intros H. unfold range.
  replace (Z.to_nat (b - a)) with (S (Z.to_nat (b - (a + 1)))) by lia.
  cbn [seq map]. f_equal; [lia|].
  rewrite <- seq_shift, map_map. apply map_ext. intros k. lia.
Qed.

Lemma range_nil (a b : Z) : (b <= a)%Z -> range a b = [].
Proof.
  intros H. unfold range. now replace (Z.to_nat (b - a)) with 0 by lia.
Qed.

(** The ascending scan finds the smallest year that occurs in the line. *)
Lemma first_year_range (line : str) (n : nat) :
  forall a b, Z.to_nat (b - a) = n ->
    match first_year line (range a b) with
    | Some m =>
        (a <= m < b)%Z /\ contains (str_of_int m) line = true
        /\ forall k, (a <= k < m)%Z -> contains (str_of_int k) line = false
    | None => forall k, (a <= k < b)%Z -> contains (str_of_int k) line = false
    end.
Proof.
  induction n as [|n IH]; intros a b Hn.
  - rewrite range_nil by lia. cbn [first_year]. intros k Hk. lia.
  - rewrite range_cons by lia. cbn [first_year].
    destruct (contains (str_of_int a) line) eqn:Ea.
    + repeat split; trivial; lia.
    + specialize (IH (a + 1)%Z b ltac:(lia)).
      destruct (first_year line (range (a + 1) b)) as [m|].
      * destruct IH as (Hm & Hin & Hmin). repeat split; trivial; try lia.
        intros k Hk. destruct (Z.eq_dec k a) as [->|Hne]; trivial.
        apply Hmin. lia.
      * intros k Hk. destruct (Z.eq_dec k a) as [->|Hne]; trivial.
        apply IH. lia.
Qed.

Lemma education_loop_first (before after : list str) (line : str) :
  first_match education_keywords before line ->
  education_loop (before ++ line :: after)
  = {| degree := Some (strip line);
       year := first_year line (range 2000 2030) |}.
Proof.
  intros [Hbefore Hline].
  induction before as [|b before IH]; cbn [app education_loop].
  - now rewrite Hline.
  - rewrite (Hbefore b) by now left.
    apply IH. intros l Hl. apply Hbefore. now right.
Qed.

(** C3. When the first line of the text that holds an education keyword
    contains year tokens of 2000..2029, the education locator sets degree
    to that line trimmed and year to the smallest year of 2000..2029 that
    occurs in the line as a substring; the line
    "Bachelor of Science, 2018, Education" gives that line as degree and
    2018 as year. *)
Theorem education_year_is_smallest_in_first_line :
  (forall (text : str) (before after : list str) (line : str) (y : Z),
      split newline text = before ++ line :: after ->
      first_match education_keywords before line ->
      (2000 <= y <= 2029)%Z ->
      contains (str_of_int y) line = true ->
      exists m : Z,
        _extract_education (lower text) (split newline text)
        = Ok {| degree := Some (strip line); year := Some m |}
        /\ (2000 <= m <= y)%Z
        /\ contains (str_of_int m) line = true
        /\ forall k, (2000 <= k < m)%Z -> contains (str_of_int k) line = false)
  /\ _extract_education (lower spec_education_line)
       (split newline spec_education_line)
     = Ok {| degree := Some spec_education_line; year := Some 2018%Z |}.
Proof.
  split; [|vm_compute; reflexivity].
  intros text before after line y Hsplit Hfirst Hy Hin.
  unfold _extract_education. rewrite Hsplit.
  rewrite (education_loop_first after Hfirst).
  pose proof (@first_year_range line 30 2000 2030 eq_refl)%Z as H.
  destruct (first_year line (range 2000 2030)) as [m|].
  - destruct H as (Hm & Hmin & Hless). exists m.
    repeat split; trivial; try lia.
    destruct (Z.le_gt_cases m y) as [Hle|Hgt]; trivial.
    rewrite Hless in Hin by lia. discriminate.
  - rewrite H in Hin by lia. discriminate.
Qed.

Lemma education_year_is_smallest_in_first_line_witness :
  exists m : Z,
    _extract_education (lower two_year_line) (split newline two_year_line)
    = Ok {| degree := Some (strip two_year_line); year := Some m |}
    /\ (2000 <= m <= 2021)%Z
    /\ contains (str_of_int m) two_year_line = true
    /\ forall k, (2000 <= k < m)%Z ->
                 contains (str_of_int k) two_year_line = false.
Proof.
  apply (proj1 education_year_is_smallest_in_first_line
           two_year_line [] [] two_year_line 2021%Z).
  - reflexivity.
  - split; [intros l []|reflexivity].
  - lia.
  - reflexivity.
Defined.

Lemma experience_loop_first (done before after : list str) (line : str) :
  first_match experience_keywords before line ->
  experience_loop (done ++ before ++ line :: after) (List.length done)
    (before ++ line :: after)
  = Ok {| title := match after with
                   | [] => None
                   | next :: _ => Some (strip next)
                   end |}.
Proof.
  intros [Hbefore Hline]. revert done.
  induction before as [|b before IH]; intros done; cbn [app experience_loop].
  - rewrite Hline. destruct after as [|next after].
    + destruct (Nat.ltb_spec (List.length done + 1)
                  (List.length (done ++ [line]))) as [Hlt|_]; trivial.
      rewrite length_app in Hlt. cbn [List.length] in Hlt. lia.
    + destruct (Nat.ltb_spec (List.length done + 1)
                  (List.length (done ++ line :: next :: after))) as [_|Hge].
      * unfold getitem.
        rewrite <- (Nat.add_0_r (List.length done + 1)), nth_error_after.
        cbn [nth_error bind]. now destruct (strip next).
      * rewrite length_app in Hge. cbn [List.length] in Hge. lia.
  - rewrite (Hbefore b) by now left.
    specialize (IH (fun l Hl => Hbefore l (or_intror Hl)) (done ++ [b])).
    rewrite <- app_assoc, length_app in IH. exact IH.
Qed.

(** C5, as the code has it.  When some line holds an experience keyword,
    the experience locator sets title to the trimmed text of the line that
    follows the first such line (the empty string when that line is
    blank); when the first such line is the last line of the text, title
    is not set and the mapping stays empty. *)
Theorem experience_title_is_next_line :
  forall (text : str) (before after : list str) (line : str),
    split newline text = before ++ line :: after ->
    first_match experience_keywords before line ->
    _extract_experience (lower text) (split newline text)
    = Ok {| title := match after with
                     | [] => None
                     | next :: _ => Some (strip next)
                     end |}.
Proof.
  intros text before after line Hsplit Hfirst.
  unfold _extract_experience. rewrite Hsplit.
  exact (@experience_loop_first [] before after line Hfirst).
Qed.

Lemma experience_title_is_next_line_witness :
  _extract_experience (lower blank_after_heading)
    (split newline blank_after_heading)
  = Ok {| title := Some [] |}.
Proof.
  apply (@experience_title_is_next_line blank_after_heading
           [lit "Jane Roe"] [lit "   "; lit "Acme Corp"]
           (lit "Work Experience")).
  - reflexivity.
  - split; [|reflexivity].
    intros l [<-|[]]. reflexivity.
Defined.

(** C5 as stated fails: the only line of "Work Experience" holds a
    keyword and is the last line, and the locator returns the empty
    mapping, not a mapping whose title is the empty string. *)
Lemma experience_title_absent_on_last_line :
  split newline (lit "Work Experience") = [lit "Work Experience"]
  /\ first_match experience_keywords [] (lit "Work Experience")
  /\ _extract_experience (lower (lit "Work Experience"))
       (split newline (lit "Work Experience"))
     = Ok {| title := None |}
  /\ _extract_experience (lower (lit "Work Experience"))
       (split newline (lit "Work Experience"))
     <> Ok {| title := Some [] |}.
Proof.
  split; [reflexivity|].
  split; [split; [intros l []|reflexivity]|].
  split; [reflexivity|].
  vm_compute. discriminate.
Qed.

(** ** Projects *)

Lemma truthy_long (s : str) :
  truthy s && (10 <? List.length s) = long_enough s.
Proof. destruct s; reflexivity. Qed.

(** The inner loop over a window of lines: what was collected before and
    the long lines of the window, five at most. *)
Lemma projects_inner_window (lines : list str) (window : list str) :
  forall (start : nat) (acc : list str),
    (forall k, k < List.length window ->
               nth_error lines (start + k) = nth_error window k) ->
    List.length acc < 5 ->
    projects_inner lines (seq start (List.length window)) acc
    = Ok (firstn 5 (acc ++ filter long_enough (map strip window))).
Proof.
  induction window as [|w window IH]; intros start acc Hnth Hacc.
  - cbn [List.length seq projects_inner map filter].
    rewrite app_nil_r, firstn_all2 by lia. reflexivity.
  - cbn [List.length seq projects_inner map filter].
    unfold getitem. pose proof (Hnth 0 ltac:(cbn [List.length]; lia)) as H0.
    rewrite Nat.add_0_r in H0. rewrite H0. cbn [nth_error bind].
    rewrite truthy_long.
    assert (Hnext : forall k, k < List.length window ->
                nth_error lines (S start + k) = nth_error window k).
    { intros k Hk.
      specialize (Hnth (S k) ltac:(cbn [List.length]; lia)).
      rewrite Nat.add_succ_r in Hnth. exact Hnth. }
    destruct (long_enough (strip w)).
    + destruct (Nat.leb_spec 5 (List.length (acc ++ [strip w]))) as [Hfull|Hroom].
      * rewrite length_app in Hfull. cbn [List.length] in Hfull.
        replace (acc ++ strip w :: filter long_enough (map strip window))
          with ((acc ++ [strip w]) ++ filter long_enough (map strip window))
          by now rewrite <- app_assoc.
        rewrite firstn_app.
        rewrite firstn_all2 by (rewrite length_app; cbn [List.length]; lia).
        replace (5 - List.length (acc ++ [strip w])) with 0
          by (rewrite length_app; cbn [List.length]; lia).
        now rewrite firstn_0, app_nil_r.
      * rewrite (IH (S start) (acc ++ [strip w]) Hnext Hroom).
        now rewrite <- app_assoc.
    + destruct (Nat.leb_spec 5 (List.length acc)) as [Hfull|_]; [lia|].
      now apply IH.
Qed.

Lemma projects_loop_first (done before after : list str) (line : str) :
  first_match project_keywords before line ->
  projects_loop (done ++ before ++ line :: after) (List.length done)
    (before ++ line :: after)
  = Ok (firstn 5 (filter long_enough (map strip (firstn 9 after)))).
Proof.
  intros [Hbefore Hline]. revert done.
  induction before as [|b before IH]; intros done; cbn [app projects_loop].
  - rewrite Hline.
    replace (Nat.min (List.length done + 10)
               (List.length (done ++ line :: after))
             - (List.length done + 1))
      with (List.length (firstn 9 after))
      by (rewrite length_firstn, length_app; cbn [List.length]; lia).
    rewrite projects_inner_window; [reflexivity| |cbn [List.length]; lia].
    intros k Hk. rewrite nth_error_after, nth_error_firstn.
    rewrite length_firstn in Hk.
    destruct (Nat.ltb_spec k 9); [reflexivity|lia].
  - rewrite (Hbefore b) by now left.
    specialize (IH (fun l Hl => Hbefore l (or_intror Hl)) (done ++ [b])).
    rewrite <- app_assoc, length_app in IH. exact IH.
Qed.

(** C6, as the code has it.  When some line holds a project keyword, the
    projects locator looks at the 9 lines that follow the first such line
    (fewer when the text ends before), and returns, in order, the trimmed
    text of those whose trimmed length exceeds 10, the first 5 at most. *)
Theorem projects_from_next_nine_lines :
  forall (text : str) (before after : list str) (line : str),
    split newline text = before ++ line :: after ->
    first_match project_keywords before line ->
    _extract_projects (lower text) (split newline text)
    = Ok (firstn 5 (filter long_enough (map strip (firstn 9 after)))).
Proof.
  intros text before after line Hsplit Hfirst.
  unfold _extract_projects. rewrite Hsplit.
  pose proof (@projects_loop_first [] before after line Hfirst) as H.
  cbn [app List.length] in H. rewrite H.
  cbn [bind]. now rewrite firstn_firstn.
Qed.

Lemma projects_from_next_nine_lines_witness :
  _extract_projects (lower tenth_line_text) (split newline tenth_line_text)
  = Ok [].
Proof.
  apply (@projects_from_next_nine_lines tenth_line_text []
           (nine_short_lines ++ [lit "Resume parser in Python"])
           (lit "Projects")).
  - reflexivity.
  - split; [intros l []|reflexivity].
Defined.

(** C6 as stated fails: the tenth line after the heading is within "the
    next 10 lines", is not blank and has more than 10 characters, and
    nothing was collected before it, yet the locator returns no project. *)
Lemma projects_tenth_line_not_scanned :
  split newline tenth_line_text
  = lit "Projects" :: nine_short_lines ++ [lit "Resume parser in Python"]
  /\ first_match project_keywords [] (lit "Projects")
  /\ firstn 5 (filter long_enough
                 (map strip
                    (firstn 10
                       (nine_short_lines ++ [lit "Resume parser in Python"]))))
     = [lit "Resume parser in Python"]
  /\ _extract_projects (lower tenth_line_text) (split newline tenth_line_text)
     <> Ok [lit "Resume parser in Python"].
Proof.
  split; [reflexivity|].
  split; [split; [intros l []|reflexivity]|].
  split; [reflexivity|].
  vm_compute. discriminate.
Qed.

(** ** Introduction *)

Lemma introduction_loop_none (keywords : list str) (text text_lower : str) :
  any_in keywords text_lower = false ->
  introduction_loop keywords text text_lower = None.
Proof.
  induction keywords as [|k rest IH]; cbn [introduction_loop]; trivial.
  unfold any_in. cbn [existsb]. intros H.
  apply orb_false_iff in H. destruct H as [-> H]. now apply IH.
Qed.

(** C7, as the code has it.  For a text with no introduction keyword (in
    any letter case) and no blank-line paragraph break, the introduction
    locator returns the first 300 characters of the text (the whole text
    when it is shorter) with the white space at both ends removed. *)
Theorem introduction_fallback_is_trimmed_prefix :
  forall text : str,
    any_in intro_keywords (lower text) = false ->
    contains paragraph_break text = false ->
    _extract_introduction text (lower text) = Ok (strip (firstn 300 text)).
Proof.
  intros text Hkw Hbreak. unfold _extract_introduction.
  rewrite (@introduction_loop_none intro_keywords text (lower text) Hkw), Hbreak. cbn [bind].
  rewrite (@slice_from_0 text 300), slice_from_0 by lia.
  rewrite firstn_all2; [reflexivity|].
  etransitivity; [apply strip_length|].
  rewrite length_firstn.
  change (Z.to_nat 300) with 300. change (Z.to_nat 500) with 500. lia.
Qed.

Lemma introduction_fallback_is_trimmed_prefix_witness :
  _extract_introduction (lit "  Jane Roe, engineer ")
    (lower (lit "  Jane Roe, engineer "))
  = Ok (lit "Jane Roe, engineer").
Proof.
  apply (introduction_fallback_is_trimmed_prefix (lit "  Jane Roe, engineer "));
    reflexivity.
Defined.

(** C7 as stated fails: the text has no keyword and no paragraph break
    (and no white space at either end), its first 300 characters end with
    a space, and the locator returns only the 299 letters before it. *)
Lemma introduction_fallback_not_first_300 :
  any_in intro_keywords (lower space_at_300) = false
  /\ contains paragraph_break space_at_300 = false
  /\ strip space_at_300 = space_at_300
  /\ List.length (firstn 300 space_at_300) = 300
  /\ _extract_introduction space_at_300 (lower space_at_300)
     = Ok (repeat "x"%char 299)
  /\ _extract_introduction space_at_300 (lower space_at_300)
     <> Ok (firstn 300 space_at_300).
Proof.
  repeat split; try (vm_compute; reflexivity).
  vm_compute. discriminate.
Qed.

(** ** Hobbies *)

Lemma hobbies_loop_first (before after : list str) (line : str) :
  first_match hobby_keywords before line ->
  hobbies_loop (before ++ line :: after)
  = match split (lit ":") line with
    | _ :: part :: _ => Ok (firstn 5 (map strip (split (lit ",") part)))
    | _ => Ok []
    end.
Proof.
  intros [Hbefore Hline].
  induction before as [|b before IH]; cbn [app hobbies_loop].
  - rewrite Hline.
    destruct (split (lit ":") line) as [|head [|part more]]; reflexivity.
  - rewrite (Hbefore b) by now left.
    apply IH. intros l Hl. apply Hbefore. now right.
Qed.

(** C10. The hobbies locator trims the comma-separated items of the text
    between the first and the second colon of the first matching line and
    keeps the first 5 of them, empty ones included: the line "Hobbies:"
    gives the one-element list holding the empty string, and
    "Hobbies: reading,,chess" gives "reading", the empty string,
    "chess". *)
Theorem hobbies_keep_empty_items :
  (forall (text : str) (before after more : list str) (line head part : str),
      split newline text = before ++ line :: after ->
      first_match hobby_keywords before line ->
      split (lit ":") line = head :: part :: more ->
      _extract_hobbies (lower text) (split newline text)
      = Ok (firstn 5 (map strip (split (lit ",") part))))
  /\ _extract_hobbies (lower (lit "Hobbies:")) (split newline (lit "Hobbies:"))
     = Ok [[]]
  /\ _extract_hobbies (lower (lit "Hobbies: reading,,chess"))
       (split newline (lit "Hobbies: reading,,chess"))
     = Ok [lit "reading"; []; lit "chess"].
Proof.
  split; [|split; reflexivity].
  intros text before after more line head part Hsplit Hfirst Hparts.
  unfold _extract_hobbies. rewrite Hsplit.
  now rewrite (hobbies_loop_first after Hfirst), Hparts.
Qed.

Lemma hobbies_keep_empty_items_witness :
  _extract_hobbies (lower (lit "Hobbies: a, ,, b ,c,d,e"))
    (split newline (lit "Hobbies: a, ,, b ,c,d,e"))
  = Ok [lit "a"; []; []; lit "b"; lit "c"].
Proof.
  apply (proj1 hobbies_keep_empty_items (lit "Hobbies: a, ,, b ,c,d,e")
           [] [] [] (lit "Hobbies: a, ,, b ,c,d,e") (lit "Hobbies")
           (lit " a, ,, b ,c,d,e")).
  - reflexivity.
  - split; [intros l []|reflexivity].
  - reflexivity.
Defined.

(** ** Skills *)

Lemma in_matched_skills (text_lower skills_text s : str) :
  In s (matched_skills text_lower skills_text) <->
  exists token,
    In token common_skills /\ s = Py.title token
    /\ (contains token text_lower = true
        \/ contains token skills_text = true).
Proof.
  unfold matched_skills. rewrite in_map_iff. split.
  - intros (token & <- & Hin). apply filter_In in Hin.
    destruct Hin as [Hin Hc]. apply orb_true_iff in Hc. eauto.
  - intros (token & Hin & -> & Hc). exists token. split; trivial.
    apply filter_In. split; trivial. now apply orb_true_iff.
Qed.

(** What the rule-based extraction returns, field by field: the set order
    only reaches the skills. *)
Lemma process_resume_fields (text : str) :
  exists (ex : Experience) (ho pr : list str) (it : str),
    forall (set_order : list str -> list str) (key : option str),
      process_resume (ResumeProcessor set_order) key text
      = {| education := education_loop (split newline text);
           experience := ex;
           skills :=
             set_order (matched_skills (lower text) (skills_window text));
           hobbies := ho;
           certifications :=
             firstn 5 (certifications_loop (split newline text));
           projects := pr;
           introduction := it |}.
Proof.
  destruct (experience_loop_ok (split newline text) (split newline text) 0)
    as [ex Hex].
  destruct (extract_projects_ok (lower text) (split newline text))
    as (pr & Hpr & _).
  destruct (hobbies_loop_ok (split newline text)) as (ho & Hho & _).
  destruct (extract_introduction_ok text (lower text)) as (it & Hit & _).
  exists ex, ho, pr, it. intros set_order key.
  rewrite process_resume_rules.
  unfold _extract_with_rules, ResumeProcessor;
    cbn [education_of experience_of skills_of certifications_of projects_of
         hobbies_of introduction_of].
  unfold _extract_education, _extract_experience, _extract_skills,
    _extract_certifications, _extract_hobbies.
  rewrite Hex, Hpr, Hho, Hit. reflexivity.
Qed.

Lemma nodup_singleton {A : Type} (l : list A) (a : A) :
  NoDup l -> (forall x, In x l <-> In x [a]) -> l = [a].
Proof.
  intros Hnd Hin. destruct l as [|x l].
  - destruct (proj2 (Hin a) (or_introl eq_refl)).
  - assert (x = a) as ->.
    { destruct (proj1 (Hin x) (or_introl eq_refl)) as [E|[]]. now symmetry. }
    destruct l as [|y l]; trivial.
    assert (y = a) as ->.
    { destruct (proj1 (Hin y) (or_intror (or_introl eq_refl))) as [E|[]].
      now symmetry. }
    inversion Hnd as [|? ? Hnot _]. destruct Hnot. now left.
Qed.

(** C9. Whatever order the set of matched skills is listed in, the skills
    of the returned profile hold no element twice and are exactly the
    Title-cased vocabulary tokens that occur in the lower-cased text or in
    the lower-cased skills window; two runs on the same text, each with its
    own listing order, return the same skills as sets and the same value
    in every other field; "I know PYTHON and Python" gives "Python"
    once. *)
Theorem skills_deduplicated_and_runs_agree :
  forall (order1 order2 : list str -> list str) (hf_api_key : option str)
         (resume_text : str),
    set_enumeration order1 ->
    set_enumeration order2 ->
    let run1 := process_resume (ResumeProcessor order1) hf_api_key resume_text in
    let run2 := process_resume (ResumeProcessor order2) hf_api_key resume_text in
    NoDup (skills run1)
    /\ (forall s,
          In s (skills run1) <->
          exists token,
            In token common_skills /\ s = Py.title token
            /\ (contains token (lower resume_text) = true
                \/ contains token (skills_window resume_text) = true))
    /\ (forall s, In s (skills run1) <-> In s (skills run2))
    /\ education run1 = education run2
    /\ experience run1 = experience run2
    /\ hobbies run1 = hobbies run2
    /\ certifications run1 = certifications run2
    /\ projects run1 = projects run2
    /\ introduction run1 = introduction run2
    /\ skills (process_resume (ResumeProcessor order1) hf_api_key
                 (lit "I know PYTHON and Python"))
       = [lit "Python"].
Proof.
  intros order1 order2 key text H1 H2 run1 run2.
  destruct (process_resume_fields text) as (ex & ho & pr & it & Hrun).
  subst run1 run2. rewrite !Hrun. cbn [skills education experience hobbies
    certifications projects introduction].
  destruct (H1 (matched_skills (lower text) (skills_window text)))
    as [Hnd1 Hin1].
  destruct (H2 (matched_skills (lower text) (skills_window text)))
    as [_ Hin2].
  split; [exact Hnd1|].
  split; [intros s; rewrite Hin1; apply in_matched_skills|].
  split; [intros s; now rewrite Hin1, Hin2|].
  do 6 (split; [reflexivity|]).
  destruct (process_resume_fields (lit "I know PYTHON and Python"))
    as (ex' & ho' & pr' & it' & Hrun').
  rewrite Hrun'. cbn [skills].
  destruct (H1 (matched_skills (lower (lit "I know PYTHON and Python"))
                  (skills_window (lit "I know PYTHON and Python"))))
    as [Hnd Hin].
  apply nodup_singleton; assumption.
Qed.

Lemma first_occurrences_enumerates : set_enumeration first_occurrences.
Proof.
  intros l. split; [apply NoDup_nodup|]. intros x. apply nodup_In.
Qed.

Lemma last_to_first_enumerates : set_enumeration last_to_first.
Proof.
  intros l. unfold last_to_first. split.
  - apply NoDup_rev, NoDup_nodup.
  - intros x. rewrite <- in_rev. apply nodup_In.
Qed.

Lemma skills_deduplicated_and_runs_agree_witness :
  skills (process_resume (ResumeProcessor first_occurrences) None
            skills_text_sample)
  = [lit "Python"; lit "Sql"; lit "Node.Js"]
  /\ skills (process_resume (ResumeProcessor last_to_first) None
               skills_text_sample)
     = [lit "Node.Js"; lit "Sql"; lit "Python"]
  /\ forall s,
       In s (skills (process_resume (ResumeProcessor first_occurrences) None
                       skills_text_sample))
       <-> In s (skills (process_resume (ResumeProcessor last_to_first) None
                           skills_text_sample)).
Proof.
  split; [reflexivity|]. split; [reflexivity|].
  apply (skills_deduplicated_and_runs_agree None skills_text_sample
           first_occurrences_enumerates last_to_first_enumerates).
Defined.

(** ** The call of the hosted model *)

Lemma read_result_not_timeout (py_str : json -> str) (result : json) :
  read_result py_str result <> Raise Timeout.
Proof.
  unfold read_result.
  destruct result as [| | | | |[|first items]|]; cbn [bind]; try discriminate.
  destruct first as [| | | |s|l|d]; cbn [py_in bind is_dict]; try discriminate.
  - destruct (contains (lit "generated_text") s);
      cbn [py_getitem bind]; discriminate.
  - destruct (existsb _ l); cbn [py_getitem bind]; discriminate.
  - destruct (lookup (lit "generated_text") d) as [v|] eqn:G;
      cbn [py_getitem bind].
    + rewrite G. cbn [bind]. destruct v; cbn [py_strip bind]; discriminate.
    + destruct (lookup (lit "text") d) as [v|] eqn:T; cbn [py_getitem bind].
      * destruct v; cbn [py_strip bind]; discriminate.
      * discriminate.
Qed.

(** C2, as the code has it.  [_call_hf_api] always returns an answer
    string and never raises.  When the request raises anything but a
    timeout, when the status is neither 200 nor 503, and when the status
    is 200 but the body cannot be decoded or read, the answer is the
    fallback answer for the prompt.  On a timeout the answer is the fixed
    message "Request timed out. Please try again.", and on status 503 the
    fixed message that the model is loading; the fallback answerer is not
    run in these two cases. *)
Theorem call_hf_api_always_answers :
  forall (py_str : json -> str) (prompt : str),
    (forall post, exists answer, _call_hf_api py_str post prompt = Ok answer)
    /\ _call_hf_api py_str (PostRaises Timeout) prompt = Ok timed_out
    /\ (forall text decoded,
          _call_hf_api py_str (PostReturns 503 text decoded) prompt
          = Ok model_loading)
    /\ (forall e,
          e <> Timeout ->
          _call_hf_api py_str (PostRaises e) prompt
          = Ok (_fallback_answer prompt))
    /\ (forall status text decoded,
          status <> 200%Z -> status <> 503%Z ->
          _call_hf_api py_str (PostReturns status text decoded) prompt
          = Ok (_fallback_answer prompt))
    /\ (forall text e,
          e <> Timeout ->
          _call_hf_api py_str (PostReturns 200 text (Raise e)) prompt
          = Ok (_fallback_answer prompt))
    /\ (forall text result e,
          read_result py_str result = Raise e ->
          _call_hf_api py_str (PostReturns 200 text (Ok result)) prompt
          = Ok (_fallback_answer prompt)).
Proof.
  intros py_str prompt.
  split.
  { intros post. unfold _call_hf_api.
    destruct (call_body py_str post prompt) as [answer|[]]; eauto. }
  split; [reflexivity|].
  split; [reflexivity|].
  split.
  { intros e He. unfold _call_hf_api, call_body. now destruct e. }
  split.
  { intros status text decoded H200 H503. unfold _call_hf_api, call_body.
    destruct (Z.eqb_spec status 200) as [|_]; [contradiction|].
    destruct (Z.eqb_spec status 503) as [|_]; [contradiction|].
    reflexivity. }
  split.
  { intros text e He. unfold _call_hf_api, call_body.
    cbn [Z.eqb Pos.eqb bind]. now destruct e. }
  intros text result e Hraise. unfold _call_hf_api, call_body.
  cbn [Z.eqb Pos.eqb bind]. rewrite Hraise.
  destruct e; trivial. now apply read_result_not_timeout in Hraise.
Qed.

Lemma call_hf_api_always_answers_witness :
  _call_hf_api (fun _ => []) (PostRaises ConnectionError) skills_prompt
  = Ok (_fallback_answer skills_prompt)
  /\ _call_hf_api (fun _ => []) (PostReturns 500 [] (Raise JSONDecodeError))
       skills_prompt
     = Ok (_fallback_answer skills_prompt)
  /\ _call_hf_api (fun _ => []) (PostReturns 200 [] (Ok (JList [JInt 1])))
       skills_prompt
     = Ok (_fallback_answer skills_prompt).
Proof.
  pose proof (call_hf_api_always_answers (fun _ => []) skills_prompt)
    as (_ & _ & _ & Hraise & Hstatus & _ & Hread).
  split; [apply Hraise; discriminate|].
  split; [apply Hstatus; discriminate|].
  apply (Hread [] (JList [JInt 1]) TypeError). reflexivity.
Defined.

(** C2 as stated fails: on a timeout and on status 503 the answer is a
    fixed message, which is not what the fallback answerer returns for the
    prompt. *)
Lemma timeout_and_loading_skip_fallback :
  _call_hf_api (fun _ => []) (PostRaises Timeout) skills_prompt
  <> Ok (_fallback_answer skills_prompt)
  /\ _call_hf_api (fun _ => [])
       (PostReturns 503 (lit "Model is loading") (Raise JSONDecodeError))
       skills_prompt
     <> Ok (_fallback_answer skills_prompt).
Proof.
  split; vm_compute; discriminate.
Qed.

(** ** The fallback answerer: graduation *)

Lemma match_year_century (prev_word : bool) (s group1 : str) :
  match_year prev_word s = Some group1 -> century group1.
Proof.
  unfold match_year.
  destruct s as [|c1 [|c2 [|d1 [|d2 rest]]]]; try discriminate.
  destruct (xorb prev_word (is_word c1)); cbn [andb]; [|discriminate].
  destruct (Py.eqb [c1; c2] (lit "19")) eqn:E19.
  - apply eqb_true_iff in E19. cbn [orb andb].
    destruct (is_digit d1 && is_digit d2
              && xorb (is_word d2) (next_is_word rest));
      [|discriminate].
    intros [= <-]. now left.
  - destruct (Py.eqb [c1; c2] (lit "20")) eqn:E20; cbn [orb andb];
      [|discriminate].
    apply eqb_true_iff in E20.
    destruct (is_digit d1 && is_digit d2
              && xorb (is_word d2) (next_is_word rest));
      [|discriminate].
    intros [= <-]. now right.
Qed.

Lemma findall_year_century (s : str) :
  forall (prev_word : bool) (skip : nat),
    Forall century (findall_year_from prev_word s skip).
Proof.
  induction s as [|c s IH]; intros prev_word skip; cbn [findall_year_from].
  - constructor.
  - destruct skip as [|k]; [|apply IH].
    destruct (match_year prev_word (c :: s)) as [group1|] eqn:E; [|apply IH].
    constructor; [eapply match_year_century; eauto|apply IH].
Qed.

(** C4, where the code departs from it.  On the graduation branch the
    answer never names a 4-digit year: [re.findall] returns group 1 of the
    pattern, the two digits "19" or "20", so the answer ends with "in 19."
    or "in 20.", or is the not-available message (always so when the
    pattern matches nowhere).  For a prompt whose only year is 2018 the
    answer is "The candidate finished graduation in 20.". *)
Theorem fallback_graduation_reports_century :
  (forall prompt : str,
      contains (lit "graduation") (lower prompt)
      || contains (lit "graduate") (lower prompt) = true ->
      (_fallback_answer prompt = lit "The candidate finished graduation in 19."
       \/ _fallback_answer prompt
          = lit "The candidate finished graduation in 20."
       \/ _fallback_answer prompt = graduation_unavailable)
      /\ (findall_year prompt = [] ->
          _fallback_answer prompt = graduation_unavailable))
  /\ contains (lit "graduate") (lower graduation_prompt) = true
  /\ contains (lit "education") (lower graduation_prompt) = true
  /\ findall_year graduation_prompt = [lit "20"; lit "20"]
  /\ _fallback_answer graduation_prompt
     = lit "The candidate finished graduation in 20.".
Proof.
  split; [|repeat split; vm_compute; reflexivity].
  intros prompt Hgrad. unfold _fallback_answer. rewrite Hgrad.
  split.
  - destruct (contains (lit "education") (lower prompt)); [|now right; right].
    pose proof (findall_year_century prompt false 0) as Hall.
    fold (findall_year prompt) in Hall.
    apply Forall_rev in Hall.
    destruct (rev (findall_year prompt)) as [|last_year rest];
      [now right; right|].
    inversion Hall as [|? ? [-> | ->] _]; [now left|now right; left].
  - intros ->. cbn [rev].
    now destruct (contains (lit "education") (lower prompt)).
Qed.

Lemma fallback_graduation_reports_century_witness :
  (_fallback_answer (lit "Education: BSc 1999. Year of graduation?")
   = lit "The candidate finished graduation in 19."
   \/ _fallback_answer (lit "Education: BSc 1999. Year of graduation?")
      = lit "The candidate finished graduation in 20."
   \/ _fallback_answer (lit "Education: BSc 1999. Year of graduation?")
      = graduation_unavailable)
  /\ (findall_year (lit "Education: BSc 1999. Year of graduation?") = [] ->
      _fallback_answer (lit "Education: BSc 1999. Year of graduation?")
      = graduation_unavailable).
Proof.
  apply (proj1 fallback_graduation_reports_century
           (lit "Education: BSc 1999. Year of graduation?")).
  reflexivity.
Defined.

(** ** The fallback answerer: skills *)

Lemma search_skills_cons (c : ascii) (s : str) :
  match_literal_ignorecase (lit "skills:") (c :: s) = None ->
  search_skills (c :: s) = search_skills s.
Proof. intros H. cbn [search_skills]. now rewrite H. Qed.

(** The search passes over the text in which the literal does not
    match. *)
Lemma search_skills_skips (before rest : str) :
  forall i : nat,
    first_literal_match (lit "skills:") (before ++ rest) i
    = Some (i + List.length before) ->
    search_skills (before ++ rest) = search_skills rest.
Proof.
  induction before as [|c before IH]; intros i Hfirst; [reflexivity|].
  cbn [app] in *. cbn [first_literal_match] in Hfirst.
  destruct (match_literal_ignorecase (lit "skills:") (c :: before ++ rest))
    eqn:Ematch.
  - cbn [List.length] in Hfirst.
    assert (i = i + S (List.length before)) by congruence. lia.
  - rewrite search_skills_cons by exact Ematch.
    apply (IH (S i)). rewrite Hfirst. f_equal. cbn [List.length]. lia.
Qed.

Lemma search_skills_at_marker (rest : str) :
  search_skills (lit "skills: python, sql" ++ rest)
  = Some (lit "python, sql" ++ up_to is_newline rest).
Proof. vm_compute. reflexivity. Qed.

(** C8, as the code has it.  When the lower-cased prompt contains
    neither "graduation" nor "graduate", and the marker
    "Skills: Python, SQL" stands where the literal "skills:" of the
    pattern, matched without regard to case, first matches in the
    lower-cased prompt (no match of it starts before the marker), the
    fallback answer is "The candidate has the following skills: "
    followed by the lower-cased text after the marker "skills:" up to the
    end of its line; so the answer contains "python, sql", in lower
    case. *)
Theorem fallback_skills_answer_is_lower_case :
  forall before after : str,
    let prompt := before ++ skills_marker ++ after in
    contains (lit "graduation") (lower prompt) = false ->
    contains (lit "graduate") (lower prompt) = false ->
    first_literal_match (lit "skills:") (lower prompt) 0
    = Some (List.length before) ->
    contains (lit "skill") (lower prompt) = true
    /\ _fallback_answer prompt
       = lit "The candidate has the following skills: "
         ++ lit "python, sql" ++ up_to is_newline (lower after)
    /\ contains (lit "python, sql") (_fallback_answer prompt) = true.
Proof.
  intros before after prompt Hgraduation Hgraduate Hfirst.
  assert (Hlower : lower prompt
                   = lower before ++ lit "skills: python, sql" ++ lower after).
  { subst prompt. now rewrite !lower_app. }
  assert (Hskill : contains (lit "skill") (lower prompt) = true).
  { rewrite Hlower.
    change (lit "skills: python, sql" ++ lower after)
      with (lit "skill" ++ (lit "s: python, sql" ++ lower after)).
    apply contains_app. }
  assert (Hmarker : contains (lit "skills:") (lower prompt) = true).
  { rewrite Hlower.
    change (lit "skills: python, sql" ++ lower after)
      with (lit "skills:" ++ (lit " python, sql" ++ lower after)).
    apply contains_app. }
  assert (Hanswer : _fallback_answer prompt
                    = lit "The candidate has the following skills: "
                      ++ lit "python, sql" ++ up_to is_newline (lower after)).
  { unfold _fallback_answer.
    rewrite Hgraduation, Hgraduate, Hskill, Hmarker. cbn [orb].
    rewrite Hlower in Hfirst |- *.
    rewrite (@search_skills_skips (lower before)
               (lit "skills: python, sql" ++ lower after) 0).
    - now rewrite search_skills_at_marker.
    - rewrite Hfirst. unfold lower. now rewrite length_map. }
  split; [exact Hskill|]. split; [exact Hanswer|].
  rewrite Hanswer. apply contains_app.
Qed.

Lemma fallback_skills_answer_is_lower_case_witness :
  _fallback_answer skills_prompt
  = lit "The candidate has the following skills: python, sql".
Proof.
  apply (@fallback_skills_answer_is_lower_case
           (lit "Based on the following candidate information, answer the question accurately and concisely."
            ++ newline ++ newline ++ lit "Candidate Information:" ++ newline)
           (newline ++ newline ++ lit "Question: what skills"
            ++ newline ++ newline ++ lit "Answer:"));
    reflexivity.
Defined.

(** C8 as stated fails, in two ways.  The prompt built from the question
    "what skills" and the context "Skills: Python, SQL" meets the
    conditions, and the answer holds the skills in lower case, so
    "Python, SQL" does not occur in it.  The prompt built from the same
    question and a context whose introduction line says "Key skills:
    teamwork" before the line "Skills: Python, SQL" meets the conditions
    too, and the answer reports the text after the earlier "skills:", so
    the skills of the marker occur in it in neither case. *)
Lemma fallback_skills_answer_is_not_python_sql :
  (contains (lit "skill") (lower skills_prompt) = true
   /\ contains (lit "graduation") (lower skills_prompt) = false
   /\ contains (lit "graduate") (lower skills_prompt) = false
   /\ contains skills_marker skills_prompt = true
   /\ _fallback_answer skills_prompt
      = lit "The candidate has the following skills: python, sql"
   /\ contains (lit "Python, SQL") (_fallback_answer skills_prompt) = false)
  /\ (contains (lit "skill") (lower introduction_skills_prompt) = true
      /\ contains (lit "graduation") (lower introduction_skills_prompt)
         = false
      /\ contains (lit "graduate") (lower introduction_skills_prompt) = false
      /\ contains skills_marker introduction_skills_prompt = true
      /\ _fallback_answer introduction_skills_prompt
         = lit "The candidate has the following skills: teamwork"
      /\ contains (lit "Python, SQL")
           (_fallback_answer introduction_skills_prompt) = false
      /\ contains (lit "python, sql")
           (_fallback_answer introduction_skills_prompt) = false).
Proof. repeat split; vm_compute; reflexivity. Qed.

(** * Further properties *)

Lemma Ok_inj {A : Type} (a b : A) : Ok a = Ok b -> a = b.
Proof. intros H. now injection H. Qed.

Lemma Failed_inj {A : Type} (m n : str) : @Failed A m = Failed n -> m = n.
Proof. intros H. now injection H. Qed.

Lemma Returned_inj {A : Type} (a b : A) : Returned a = Returned b -> a = b.
Proof. intros H. now injection H. Qed.

(** ** White space at the ends *)

Lemma lstrip_idempotent (s : str) : lstrip (lstrip s) = lstrip s.
Proof.
  induction s as [|c s IH]; cbn [lstrip]; trivial.
  destruct (is_space c) eqn:E; trivial. cbn [lstrip]. now rewrite E.
Qed.

Lemma lstrip_fixed_head (c : ascii) (s : str) :
  lstrip (c :: s) = c :: s -> is_space c = false.
Proof.
  cbn [lstrip]. destruct (is_space c); trivial. intros H.
  pose proof (lstrip_length s) as L. rewrite H in L.
  cbn [List.length] in L. lia.
Qed.

Lemma lstrip_snoc (u : str) (c : ascii) :
  is_space c = false -> lstrip (u ++ [c]) = lstrip u ++ [c].
Proof.
  intros Hc. induction u as [|x u IH]; cbn [app lstrip].
  - now rewrite Hc.
  - destruct (is_space x); trivial.
Qed.

Lemma rstrip_cons (c : ascii) (s : str) :
  is_space c = false -> rstrip (c :: s) = c :: rstrip s.
Proof.
  intros Hc. unfold rstrip. cbn [rev].
  rewrite lstrip_snoc by exact Hc. now rewrite rev_app_distr.
Qed.

Lemma rstrip_idempotent (s : str) : rstrip (rstrip s) = rstrip s.
Proof.
  unfold rstrip. now rewrite rev_involutive, lstrip_idempotent.
Qed.

Lemma lstrip_rstrip (s : str) : lstrip s = s -> lstrip (rstrip s) = rstrip s.
Proof.
  intros H. destruct s as [|c s]; [reflexivity|].
  pose proof (lstrip_fixed_head H) as Hc.
  rewrite rstrip_cons by exact Hc. cbn [lstrip]. now rewrite Hc.
Qed.

Lemma strip_no_leading_space (s : str) : no_leading_space (strip s).
Proof. apply lstrip_rstrip, lstrip_idempotent. Qed.

Lemma strip_trimmed (s : str) : trimmed (strip s).
Proof.
  unfold trimmed. unfold strip at 1.
  rewrite strip_no_leading_space. apply rstrip_idempotent.
Qed.

Lemma firstn_no_leading_space (n : nat) (s : str) :
  no_leading_space s -> no_leading_space (firstn n s).
Proof.
  unfold no_leading_space. intros H.
  destruct s as [|c s]; [now rewrite firstn_nil|].
  destruct n as [|n]; [reflexivity|].
  cbn [firstn lstrip]. now rewrite (lstrip_fixed_head H).
Qed.

Lemma in_lstrip (x : ascii) (s : str) : In x (lstrip s) -> In x s.
Proof.
  induction s as [|c s IH]; cbn [lstrip]; trivial.
  destruct (is_space c); trivial. intros H. right. auto.
Qed.

Lemma in_strip (x : ascii) (s : str) : In x (strip s) -> In x s.
Proof.
  unfold strip, rstrip. intros H.
  apply in_rev, in_lstrip in H. apply in_rev in H. now apply in_lstrip.
Qed.

(** ** Substrings and pieces *)

Lemma contains_inside (k p a b : str) :
  contains k p = true -> contains k (a ++ p ++ b) = true.
Proof.
  intros H. apply contains_true in H. destruct H as (x & y & ->).
  replace (a ++ (x ++ k ++ y) ++ b) with ((a ++ x) ++ k ++ (y ++ b))
    by now rewrite <- !app_assoc.
  apply contains_app.
Qed.

Lemma contains_lower_inside (k p a b : str) :
  contains k (lower p) = true -> contains k (lower (a ++ p ++ b)) = true.
Proof. intros H. rewrite !lower_app. now apply contains_inside. Qed.

(** Every piece of a split is a substring of the text that was split. *)
Lemma split_from_pieces (sep s : str) :
  forall (skip : nat) (cur p : str),
    (0 < skip -> cur = []) ->
    In p (split_from sep s skip cur) ->
    exists a b, rev cur ++ s = a ++ p ++ b.
Proof.
  induction s as [|c s IH]; intros skip cur p Hcur Hin;
    cbn [split_from] in Hin.
  - destruct Hin as [<-|[]]. exists [], []. now rewrite !app_nil_r.
  - destruct skip as [|k].
    + destruct (startswith sep (c :: s)).
      * destruct Hin as [<-|Hin].
        -- now exists [], (c :: s).
        -- destruct (IH _ [] p (fun _ => eq_refl) Hin) as (a & b & E).
           cbn [rev app] in E. exists (rev cur ++ c :: a), b.
           rewrite E, <- app_assoc. reflexivity.
      * destruct (IH 0 (c :: cur) p ltac:(lia) Hin) as (a & b & E).
        cbn [rev] in E. rewrite <- app_assoc in E. now exists a, b.
    + rewrite (Hcur ltac:(lia)) in *.
      assert (Hk : 0 < k -> @nil ascii = []) by trivial.
      destruct (IH k [] p Hk Hin) as (a & b & E).
      cbn [rev app] in *. exists (c :: a), b. now rewrite E.
Qed.

Lemma split_piece (sep s p : str) :
  In p (split sep s) -> exists a b, s = a ++ p ++ b.
Proof.
  intros H. apply (@split_from_pieces sep s 0 [] p) in H; [exact H|lia].
Qed.

(** A keyword found in a line of the text is found in the text. *)
Lemma keyword_of_line (keywords : list str) (text line : str) :
  In line (split newline text) ->
  any_in keywords (lower line) = true ->
  any_in keywords (lower text) = true.
Proof.
  intros Hline Hany. apply split_piece in Hline.
  destruct Hline as (a & b & ->).
  unfold any_in in *. apply existsb_exists in Hany.
  destruct Hany as (k & Hk & Hc). apply existsb_exists. exists k.
  split; trivial. now apply contains_lower_inside.
Qed.

(** The pieces of a split at one character do not hold that character. *)
Lemma split_from_lacks (c : ascii) (s : str) :
  forall cur p : str,
    lacks c cur ->
    In p (split_from [c] s 0 cur) ->
    lacks c p.
Proof.
  induction s as [|x s IH]; intros cur p Hcur Hin; cbn [split_from] in Hin.
  - destruct Hin as [<-|[]]. unfold lacks. now rewrite <- in_rev.
  - cbn [startswith] in Hin. rewrite andb_true_r in Hin.
    destruct (Ascii.eqb c x) eqn:E.
    + destruct Hin as [<-|Hin].
      * unfold lacks. now rewrite <- in_rev.
      * cbn [List.length Nat.sub] in Hin. apply (IH [] p); trivial.
        intros [].
    + apply (IH (x :: cur) p); trivial.
      intros [->|H]; [|now apply Hcur].
      now rewrite Ascii.eqb_refl in E.
Qed.

Lemma split_lacks (c : ascii) (s p : str) :
  In p (split [c] s) -> lacks c p.
Proof. apply split_from_lacks. intros []. Qed.

Lemma piece_lacks (c : ascii) (sep s p : str) :
  lacks c s -> In p (split sep s) -> lacks c p.
Proof.
  intros Hs Hp Hin. apply split_piece in Hp. destruct Hp as (a & b & ->).
  apply Hs. apply in_or_app. right. apply in_or_app. now left.
Qed.

Lemma in_firstn {A : Type} (n : nat) (l : list A) (x : A) :
  In x (firstn n l) -> In x l.
Proof.
  revert l. induction n as [|n IH]; intros [|y l]; cbn [firstn];
    try (intros H; now destruct H). intros [->|H]; [now left|right; auto].
Qed.

Lemma forall_firstn {A : Type} (P : A -> Prop) (n : nat) (l : list A) :
  Forall P l -> Forall P (firstn n l).
Proof.
  rewrite !Forall_forall. intros H x Hx. apply H. eapply in_firstn; eauto.
Qed.

(** ** Invariants of the locators *)

Lemma education_loop_entries (lines : list str) :
  (year (education_loop lines) <> None -> degree (education_loop lines) <> None)
  /\ (forall d, degree (education_loop lines) = Some d ->
        trimmed d
        /\ exists line,
             In line lines /\ d = strip line
             /\ any_in education_keywords (lower line) = true)
  /\ ((forall line, In line lines ->
         any_in education_keywords (lower line) = false) ->
      education_loop lines = {| degree := None; year := None |}).
Proof.
  induction lines as [|line rest IH]; cbn [education_loop].
  - cbn [degree year]. split; [intros H; now destruct H|].
    split; [intros d; discriminate|reflexivity].
  - destruct (any_in education_keywords (lower line)) eqn:E.
    + cbn [degree year]. split; [discriminate|]. split.
      * intros d [= <-]. split; [apply strip_trimmed|].
        exists line. repeat split; trivial. now left.
      * intros H. rewrite (H line) in E by now left. discriminate.
    + destruct IH as (Hy & Hd & Hnone). split; [exact Hy|]. split.
      * intros d Hdeg. destruct (Hd d Hdeg) as (Ht & l & Hl & Hs & Hk).
        split; trivial. exists l. repeat split; trivial. now right.
      * intros H. apply Hnone. intros l Hl. apply H. now right.
Qed.

(** X1. The degree and the year are set by the same line.  For any lines, the
    education mapping has a year only together with a degree; the degree
    is the trimmed text of a line that holds an education keyword; and the
    mapping is empty when no line holds one. *)
Theorem education_year_only_with_degree :
  forall (text_lower : str) (lines : list str),
  exists e : Education,
    _extract_education text_lower lines = Ok e
    /\ (year e <> None -> degree e <> None)
    /\ (forall d, degree e = Some d ->
          trimmed d
          /\ exists line,
               In line lines /\ d = strip line
               /\ any_in education_keywords (lower line) = true)
    /\ ((forall line, In line lines ->
           any_in education_keywords (lower line) = false) ->
        e = {| degree := None; year := None |}).
Proof.
  intros text_lower lines. exists (education_loop lines).
  split; [reflexivity|]. apply education_loop_entries.
Qed.

Lemma education_year_only_with_degree_witness :
  exists e : Education,
    _extract_education (lower (lit "Jane Roe")) [lit "Jane Roe"] = Ok e
    /\ e = {| degree := None; year := None |}.
Proof.
  destruct (education_year_only_with_degree (lower (lit "Jane Roe"))
              [lit "Jane Roe"]) as (e & He & _ & _ & Hnone).
  exists e. split; [exact He|]. apply Hnone.
  intros line [<-|[]]. reflexivity.
Defined.

Lemma experience_loop_title (lines rest : list str) :
  forall (i : nat) (e : Experience),
    experience_loop lines i rest = Ok e ->
    (forall t, title e = Some t ->
       trimmed t /\ exists line, In line lines /\ t = strip line)
    /\ ((forall line, In line rest ->
           any_in experience_keywords (lower line) = false) ->
        title e = None).
Proof.
  induction rest as [|line rest IH]; intros i e; cbn [experience_loop].
  - intros [= <-]. split; [discriminate|reflexivity].
  - destruct (any_in experience_keywords (lower line)) eqn:E.
    + destruct (i + 1 <? List.length lines).
      * unfold getitem.
        destruct (nth_error lines (i + 1)) as [next|] eqn:N;
          cbn [bind]; [|discriminate].
        intros [= <-]. cbn [title]. split.
        -- intros t [= <-]. apply nth_error_In in N.
           destruct (strip next) eqn:S; cbn [truthy].
           ++ split; [reflexivity|]. exists next. now rewrite S.
           ++ rewrite <- S. split; [apply strip_trimmed|now exists next].
        -- intros H. rewrite (H line) in E by now left. discriminate.
      * intros [= <-]. split; [discriminate|reflexivity].
    + intros H. destruct (IH _ _ H) as [Ht Hnone]. split; trivial.
      intros Hno. apply Hnone. intros l Hl. apply Hno. now right.
Qed.

(** X2. For any lines, the title of the experience mapping, when it is set, is
    the trimmed text of one of the lines, and the mapping is empty when no
    line holds an experience keyword. *)
Theorem experience_title_is_a_trimmed_line :
  forall (text_lower : str) (lines : list str),
  exists e : Experience,
    _extract_experience text_lower lines = Ok e
    /\ (forall t, title e = Some t ->
          trimmed t /\ exists line, In line lines /\ t = strip line)
    /\ ((forall line, In line lines ->
           any_in experience_keywords (lower line) = false) ->
        e = {| title := None |}).
Proof.
  intros text_lower lines. unfold _extract_experience.
  destruct (experience_loop_ok lines lines 0) as [e He].
  exists e. split; [exact He|].
  destruct (experience_loop_title _ _ _ He) as [Ht Hnone].
  split; [exact Ht|]. intros H. specialize (Hnone H).
  destruct e as [t]. cbn [title] in Hnone. now subst t.
Qed.

Lemma experience_title_is_a_trimmed_line_witness :
  exists e : Experience,
    _extract_experience (lower (lit "Jane Roe")) [lit "Jane Roe"] = Ok e
    /\ e = {| title := None |}.
Proof.
  destruct (experience_title_is_a_trimmed_line (lower (lit "Jane Roe"))
              [lit "Jane Roe"]) as (e & He & _ & Hnone).
  exists e. split; [exact He|]. apply Hnone.
  intros line [<-|[]]. reflexivity.
Defined.

Lemma certifications_loop_entries (lines : list str) :
  Forall
    (fun c =>
       trimmed_line_over 5 lines c
       /\ exists line,
            In line lines /\ c = strip line
            /\ any_in cert_keywords (lower line) = true)
    (certifications_loop lines)
  /\ ((forall line, In line lines ->
         any_in cert_keywords (lower line) = false) ->
      certifications_loop lines = []).
Proof.
  induction lines as [|line rest [IH Hnone]]; cbn [certifications_loop].
  - split; [constructor|reflexivity].
  - assert (Hrest :
      Forall
        (fun c =>
           trimmed_line_over 5 (line :: rest) c
           /\ exists l,
                In l (line :: rest) /\ c = strip l
                /\ any_in cert_keywords (lower l) = true)
        (certifications_loop rest)).
    { eapply Forall_impl; [|exact IH].
      intros c ((Hlen & Htrim & l & Hl & Hs) & l' & Hl' & Hs' & Hk).
      split; [repeat split; trivial; exists l; split; trivial; now right|].
      exists l'. repeat split; trivial. now right. }
    destruct (any_in cert_keywords (lower line)) eqn:E.
    + split.
      * destruct (Nat.ltb_spec 5 (List.length (strip line))) as [Hlen|_];
          [|exact Hrest].
        constructor; [|exact Hrest]. split.
        -- repeat split; trivial; [apply strip_trimmed|].
           exists line. split; trivial. now left.
        -- exists line. repeat split; trivial. now left.
      * intros H. rewrite (H line) in E by now left. discriminate.
    + split; [exact Hrest|].
      intros H. apply Hnone. intros l Hl. apply H. now right.
Qed.

(** X3. For any lines, every certification returned is the trimmed text of a
    line that holds a certification keyword, and has more than 5
    characters; none is returned when no line holds such a keyword. *)
Theorem certifications_are_trimmed_keyword_lines :
  forall (text_lower : str) (lines : list str),
  exists certs : list str,
    _extract_certifications text_lower lines = Ok certs
    /\ Forall
         (fun c =>
            trimmed_line_over 5 lines c
            /\ exists line,
                 In line lines /\ c = strip line
                 /\ any_in cert_keywords (lower line) = true)
         certs
    /\ ((forall line, In line lines ->
           any_in cert_keywords (lower line) = false) ->
        certs = []).
Proof.
  intros text_lower lines. eexists. split; [reflexivity|].
  destruct (certifications_loop_entries lines) as [Hall Hnone].
  split; [now apply forall_firstn|].
  intros H. now rewrite (Hnone H).
Qed.

Lemma certifications_are_trimmed_keyword_lines_witness :
  exists certs : list str,
    _extract_certifications (lower (lit "Jane Roe")) [lit "Jane Roe"]
    = Ok certs
    /\ certs = [].
Proof.
  destruct (certifications_are_trimmed_keyword_lines (lower (lit "Jane Roe"))
              [lit "Jane Roe"]) as (certs & Hc & _ & Hnone).
  exists certs. split; [exact Hc|]. apply Hnone.
  intros line [<-|[]]. reflexivity.
Defined.

Lemma projects_inner_entries (lines : list str) (js : list nat) :
  forall acc r : list str,
    Forall (trimmed_line_over 10 lines) acc ->
    projects_inner lines js acc = Ok r ->
    Forall (trimmed_line_over 10 lines) r.
Proof.
  induction js as [|j js IH]; intros acc r Hacc; cbn [projects_inner].
  - now intros [= <-].
  - unfold getitem. destruct (nth_error lines j) as [line|] eqn:N;
      cbn [bind]; [|discriminate].
    rewrite truthy_long. unfold long_enough.
    assert (Hnew : Forall (trimmed_line_over 10 lines)
                     (if 10 <? List.length (strip line)
                      then acc ++ [strip line] else acc)).
    { destruct (Nat.ltb_spec 10 (List.length (strip line))) as [Hlen|_];
        trivial.
      apply Forall_app. split; trivial. constructor; [|constructor].
      repeat split; trivial; [apply strip_trimmed|].
      exists line. split; trivial. eapply nth_error_In; eauto. }
    destruct (5 <=? List.length
                      (if 10 <? List.length (strip line)
                       then acc ++ [strip line] else acc)).
    + now intros [= <-].
    + now apply IH.
Qed.

Lemma projects_loop_entries (lines rest : list str) :
  forall (i : nat) (r : list str),
    projects_loop lines i rest = Ok r ->
    Forall (trimmed_line_over 10 lines) r
    /\ ((forall line, In line rest ->
           any_in project_keywords (lower line) = false) ->
        r = []).
Proof.
  induction rest as [|line rest IH]; intros i r; cbn [projects_loop].
  - intros [= <-]. split; [constructor|reflexivity].
  - destruct (any_in project_keywords (lower line)) eqn:E.
    + intros H. split.
      * eapply projects_inner_entries; [|exact H]. constructor.
      * intros Hno. rewrite (Hno line) in E by now left. discriminate.
    + intros H. destruct (IH _ _ H) as [Hall Hnone]. split; trivial.
      intros Hno. apply Hnone. intros l Hl. apply Hno. now right.
Qed.

(** X4. For any lines, every project returned is the trimmed text of one of
    the lines and has more than 10 characters; none is returned when no
    line holds a project keyword. *)
Theorem projects_are_long_trimmed_lines :
  forall (text_lower : str) (lines : list str),
  exists projs : list str,
    _extract_projects text_lower lines = Ok projs
    /\ Forall (trimmed_line_over 10 lines) projs
    /\ ((forall line, In line lines ->
           any_in project_keywords (lower line) = false) ->
        projs = []).
Proof.
  intros text_lower lines. unfold _extract_projects.
  destruct (projects_loop_ok lines lines 0) as [r Hr]. rewrite Hr.
  cbn [bind]. eexists. split; [reflexivity|].
  destruct (projects_loop_entries _ _ _ Hr) as [Hall Hnone].
  split; [now apply forall_firstn|].
  intros H. now rewrite (Hnone H).
Qed.

Lemma projects_are_long_trimmed_lines_witness :
  exists projs : list str,
    _extract_projects (lower (lit "Jane Roe")) [lit "Jane Roe"] = Ok projs
    /\ projs = [].
Proof.
  destruct (projects_are_long_trimmed_lines (lower (lit "Jane Roe"))
              [lit "Jane Roe"]) as (projs & Hp & _ & Hnone).
  exists projs. split; [exact Hp|]. apply Hnone.
  intros line [<-|[]]. reflexivity.
Defined.

Lemma hobbies_loop_entries (lines : list str) :
  forall r : list str,
    hobbies_loop lines = Ok r ->
    Forall
      (fun h => trimmed h /\ lacks ","%char h /\ lacks ":"%char h) r
    /\ ((forall line, In line lines ->
           any_in hobby_keywords (lower line) = false) ->
        r = []).
Proof.
  induction lines as [|line rest IH]; intros r; cbn [hobbies_loop].
  - intros [= <-]. split; [constructor|reflexivity].
  - destruct (any_in hobby_keywords (lower line)) eqn:E.
    + intros H. split.
      * destruct (1 <? List.length (split (lit ":") line)).
        -- unfold getitem in H.
           destruct (nth_error (split (lit ":") line) 1) as [part|] eqn:N;
             cbn [bind] in H; [|discriminate].
           replace r with (firstn 5 (map strip (split (lit ",") part)))
             by congruence.
           apply forall_firstn.
           apply Forall_forall. intros h Hh. apply in_map_iff in Hh.
           destruct Hh as (item & <- & Hitem).
           apply nth_error_In in N.
           split; [apply strip_trimmed|]. split.
           ++ intros Hin. apply in_strip in Hin. revert Hin.
              now apply (@split_lacks ","%char part item).
           ++ intros Hin. apply in_strip in Hin. revert Hin.
              apply (@piece_lacks ":"%char (lit ",") part item); trivial.
              now apply (@split_lacks ":"%char line part).
        -- apply Ok_inj in H. subst r. constructor.
      * intros Hno. rewrite (Hno line) in E by now left. discriminate.
    + intros H. destruct (IH _ H) as [Hall Hnone]. split; trivial.
      intros Hno. apply Hnone. intros l Hl. apply Hno. now right.
Qed.

(** X5. For any lines, no hobby returned holds a comma or a colon or has
    white space at either end; none is returned when no line holds a
    hobby keyword. *)
Theorem hobbies_hold_no_separator :
  forall (text_lower : str) (lines : list str),
  exists hobs : list str,
    _extract_hobbies text_lower lines = Ok hobs
    /\ Forall
         (fun h => trimmed h /\ lacks ","%char h /\ lacks ":"%char h) hobs
    /\ ((forall line, In line lines ->
           any_in hobby_keywords (lower line) = false) ->
        hobs = []).
Proof.
  intros text_lower lines. unfold _extract_hobbies.
  destruct (hobbies_loop_ok lines) as (r & Hr & _).
  exists r. split; [exact Hr|]. now apply hobbies_loop_entries.
Qed.

Lemma hobbies_hold_no_separator_witness :
  exists hobs : list str,
    _extract_hobbies (lower (lit "Jane Roe")) [lit "Jane Roe"] = Ok hobs
    /\ hobs = [].
Proof.
  destruct (hobbies_hold_no_separator (lower (lit "Jane Roe"))
              [lit "Jane Roe"]) as (hobs & Hh & _ & Hnone).
  exists hobs. split; [exact Hh|]. apply Hnone.
  intros line [<-|[]]. reflexivity.
Defined.

(** ** Introduction *)

Lemma slice_length_window (s : str) (lo n : Z) :
  (0 <= n)%Z -> List.length (slice s lo (lo + n)) <= Z.to_nat n.
Proof.
  intros Hn. unfold slice. rewrite length_firstn.
  etransitivity; [apply Nat.le_min_l|]. unfold clip.
  destruct (Z.ltb_spec lo 0); destruct (Z.ltb_spec (lo + n) 0); lia.
Qed.

Lemma slice_length_total (s : str) (lo hi : Z) :
  List.length (slice s lo hi) <= List.length s.
Proof.
  unfold slice. rewrite length_firstn, length_skipn. lia.
Qed.

Lemma slice_inside (s : str) (lo hi : Z) :
  exists a b, s = a ++ slice s lo hi ++ b.
Proof.
  unfold slice.
  set (m := Z.to_nat (clip (Z.of_nat (List.length s)) lo)).
  set (n := Z.to_nat (clip (Z.of_nat (List.length s)) hi
                      - clip (Z.of_nat (List.length s)) lo)).
  exists (firstn m s), (skipn n (skipn m s)).
  now rewrite (firstn_skipn n), (firstn_skipn m).
Qed.

Lemma strip_keywords_length (intro : str) :
  List.length (strip_keywords intro) <= List.length intro.
Proof.
  unfold strip_keywords. generalize intro_keywords. intros kws.
  revert intro. induction kws as [|k kws IH]; intros intro; cbn [fold_left].
  - lia.
  - etransitivity; [apply IH|apply remove_first_length].
Qed.

Lemma slice_short (s : str) (n : Z) :
  (Z.of_nat (List.length s) <= n)%Z -> slice s 0 n = s.
Proof.
  intros H. rewrite slice_from_0 by lia. apply firstn_all2. lia.
Qed.

(** What the keyword branch returns. *)
Lemma introduction_loop_entry (keywords : list str) (text text_lower intro : str) :
  introduction_loop keywords text text_lower = Some intro ->
  trimmed intro /\ List.length intro <= 300.
Proof.
  induction keywords as [|k rest IH]; cbn [introduction_loop];
    [discriminate|].
  destruct (contains k text_lower); [|exact IH].
  set (window := slice text (find k text_lower) (find k text_lower + 300)).
  assert (Hw : List.length (strip (strip_keywords (strip window))) <= 300).
  { etransitivity; [apply strip_length|].
    etransitivity; [apply strip_keywords_length|].
    etransitivity; [apply strip_length|].
    apply (@slice_length_window text (find k text_lower) 300). lia. }
  set (body := strip (strip_keywords (strip window))) in *.
  destruct (startswith (lit ":") body).
  - set (tail := strip (slice body 1 (Z.of_nat (List.length body)))).
    assert (Ht : List.length tail <= 300).
    { etransitivity; [apply strip_length|].
      etransitivity; [apply slice_length_total|exact Hw]. }
    rewrite slice_short by lia. intros [= <-].
    split; [apply strip_trimmed|exact Ht].
  - rewrite slice_short by lia. intros [= <-].
    split; [apply strip_trimmed|exact Hw].
Qed.

Lemma introduction_loop_some (keywords : list str) (text text_lower : str) :
  any_in keywords text_lower = true ->
  exists intro, introduction_loop keywords text text_lower = Some intro.
Proof.
  induction keywords as [|k rest IH]; cbn [introduction_loop];
    unfold any_in; cbn [existsb]; [discriminate|].
  destruct (contains k text_lower); [eauto|exact IH].
Qed.

Lemma trimmed_no_leading_space (s : str) : trimmed s -> no_leading_space s.
Proof. intros H. rewrite <- H. apply strip_no_leading_space. Qed.

Lemma extract_introduction_entry (text text_lower intro : str) :
  _extract_introduction text text_lower = Ok intro ->
  no_leading_space intro
  /\ (List.length intro < 500 -> trimmed intro)
  /\ (any_in intro_keywords text_lower = true -> List.length intro <= 300).
Proof.
  unfold _extract_introduction.
  destruct (introduction_loop intro_keywords text text_lower) as [found|] eqn:E.
  - intros [= <-]. destruct (@introduction_loop_entry _ _ _ _ E) as [Ht Hl].
    split; [now apply trimmed_no_leading_space|]. split; trivial.
  - destruct (if contains paragraph_break text
              then getitem (split paragraph_break text) 0
              else Ok (slice text 0 300)) as [first_paragraph|e];
      cbn [bind]; [|discriminate].
    intros [= <-]. rewrite slice_from_0 by lia.
    change (Z.to_nat 500) with 500.
    split; [apply firstn_no_leading_space, strip_no_leading_space|].
    split.
    + intros Hlen. rewrite length_firstn in Hlen.
      rewrite firstn_all2 by lia. apply strip_trimmed.
    + intros Hany. destruct (@introduction_loop_some _ text _ Hany) as [x Hx].
      congruence.
Qed.

(** X6. For any text, the introduction never starts with white space; it has
    no white space at its end either unless it was cut at 500 characters;
    and when the lower-cased text holds an introduction keyword it has at
    most 300 characters. *)
Theorem introduction_is_trimmed :
  forall text text_lower : str,
  exists intro : str,
    _extract_introduction text text_lower = Ok intro
    /\ no_leading_space intro
    /\ (List.length intro < 500 -> trimmed intro)
    /\ (any_in intro_keywords text_lower = true -> List.length intro <= 300).
Proof.
  intros text text_lower.
  destruct (extract_introduction_ok text text_lower) as (intro & H & _).
  exists intro. split; [exact H|].
  exact (@extract_introduction_entry text text_lower intro H).
Qed.

Lemma introduction_is_trimmed_witness :
  exists intro : str,
    _extract_introduction (lit "Summary: engineer")
      (lower (lit "Summary: engineer"))
    = Ok intro
    /\ List.length intro <= 300.
Proof.
  destruct (introduction_is_trimmed (lit "Summary: engineer")
              (lower (lit "Summary: engineer")))
    as (intro & Hi & _ & _ & Hshort).
  exists intro. split; [exact Hi|]. apply Hshort. reflexivity.
Defined.

(** ** Skills *)

Lemma skills_text_loop_inside (keywords : list str) (text : str) :
  exists a b,
    lower text = a ++ skills_text_loop keywords (lower text) text ++ b.
Proof.
  induction keywords as [|k rest IH]; cbn [skills_text_loop].
  - now exists [], (lower text).
  - destruct (contains k (lower text)); [|exact IH].
    destruct (slice_inside text (find k (lower text))
                (find k (lower text) + 500)) as (a & b & E).
    exists (lower a), (lower b). rewrite E at 1. now rewrite !lower_app.
Qed.

Lemma matched_skills_of_text (text : str) :
  matched_skills (lower text) (skills_window text)
  = map Py.title
      (filter (fun skill => contains skill (lower text)) common_skills).
Proof.
  unfold matched_skills. f_equal. apply filter_ext. intros skill.
  destruct (contains skill (lower text)) eqn:T; [reflexivity|].
  destruct (contains skill (skills_window text)) eqn:W; [|reflexivity].
  destruct (skills_text_loop_inside skills_keywords text) as (a & b & E).
  fold (skills_window text) in E.
  rewrite E, (@contains_inside skill (skills_window text) a b W) in T.
  discriminate.
Qed.

Lemma extract_skills_of_text (set_order : list str -> list str) (text : str) :
  _extract_skills set_order (lower text) text
  = Ok (set_order
          (map Py.title
             (filter (fun skill => contains skill (lower text))
                common_skills))).
Proof.
  unfold _extract_skills.
  fold (skills_window text). now rewrite matched_skills_of_text.
Qed.

(** X7. The 500-character window after the skills heading never adds a skill:
    for every text, the matcher returns the set of the Title-cased
    vocabulary tokens that occur in the lower-cased text, whatever the
    window holds. *)
Theorem skills_window_adds_nothing :
  forall (set_order : list str -> list str) (resume_text : str),
    _extract_skills set_order (lower resume_text) resume_text
    = Ok (set_order
            (map Py.title
               (filter (fun skill => contains skill (lower resume_text))
                  common_skills))).
Proof.
  intros set_order text. apply extract_skills_of_text.
Qed.

Lemma title_of_vocabulary (token name : str) :
  In token common_skills ->
  Py.title token = Py.title name ->
  In name common_skills ->
  token = name.
Proof.
  intros Htoken E Hname. unfold common_skills in Htoken, Hname.
  cbn [In] in Htoken, Hname.
  repeat (destruct Htoken as [<-|Htoken];
          [repeat (destruct Hname as [<-|Hname];
                   [vm_compute in E; try discriminate E; reflexivity|]);
           destruct Hname|]).
  destruct Htoken.
Qed.

(** The rule-based extraction, locator by locator. *)
Lemma process_resume_locators
  (set_order : list str -> list str) (key : option str) (text : str) :
  let p := process_resume (ResumeProcessor set_order) key text in
  let text_lower := lower text in
  let lines := split newline text in
  _extract_education text_lower lines = Ok (education p)
  /\ _extract_experience text_lower lines = Ok (experience p)
  /\ _extract_skills set_order text_lower text = Ok (skills p)
  /\ _extract_certifications text_lower lines = Ok (certifications p)
  /\ _extract_projects text_lower lines = Ok (projects p)
  /\ _extract_hobbies text_lower lines = Ok (hobbies p)
  /\ _extract_introduction text text_lower = Ok (introduction p).
Proof.
  intros p text_lower lines. subst p. rewrite process_resume_rules.
  unfold _extract_with_rules, ResumeProcessor;
    cbn [education_of experience_of skills_of certifications_of projects_of
         hobbies_of introduction_of].
  fold text_lower. fold lines.
  destruct (experience_loop_ok lines lines 0) as [ex Hex].
  destruct (extract_projects_ok text_lower lines) as (pr & Hpr & _).
  destruct (hobbies_loop_ok lines) as (ho & Hho & _).
  destruct (extract_introduction_ok text text_lower) as (it & Hit & _).
  unfold _extract_experience at 1. unfold _extract_hobbies at 1.
  rewrite Hex, Hpr, Hho, Hit.
  unfold _extract_education, _extract_skills, _extract_certifications.
  cbn [bind education experience skills certifications projects hobbies
       introduction].
  unfold _extract_experience, _extract_hobbies. now rewrite Hex, Hho.
Qed.

Lemma skill_in_profile
  (set_order : list str -> list str) (key : option str) (text name : str) :
  set_enumeration set_order ->
  In name common_skills ->
  (In (Py.title name)
      (skills (process_resume (ResumeProcessor set_order) key text))
   <-> contains name (lower text) = true).
Proof.
  intros Horder Hname.
  destruct (process_resume_locators set_order key text)
    as (_ & _ & Hskills & _).
  rewrite extract_skills_of_text in Hskills.
  apply Ok_inj in Hskills.
  set (found := skills (process_resume (ResumeProcessor set_order) key text))
    in *.
  clearbody found. subst found.
  destruct (Horder
              (map Py.title
                 (filter (fun skill => contains skill (lower text))
                    common_skills))) as [_ Hin].
  rewrite Hin, in_map_iff. split.
  - intros (token & E & Hf). apply filter_In in Hf. destruct Hf as [Ht Hc].
    now rewrite <- (@title_of_vocabulary token name Ht E Hname).
  - intros Hc. exists name. split; trivial. now apply filter_In.
Qed.

(** X8. Tokens are matched as substrings, so a longer token brings the
    shorter one it contains: with any listing order of the set, the skills
    of a profile hold at most 23 names, "Java" whenever they hold
    "Javascript", and "Sql" whenever they hold "Postgresql". *)
Theorem skills_bounded_and_nested :
  forall (set_order : list str -> list str) (hf_api_key : option str)
         (resume_text : str),
    set_enumeration set_order ->
    let found :=
      skills (process_resume (ResumeProcessor set_order) hf_api_key
                resume_text) in
    List.length found <= 23
    /\ (In (lit "Javascript") found -> In (lit "Java") found)
    /\ (In (lit "Postgresql") found -> In (lit "Sql") found).
Proof.
  intros set_order key text Horder found. subst found.
  split; [|split].
  - destruct (process_resume_locators set_order key text)
      as (_ & _ & Hskills & _).
    unfold _extract_skills in Hskills. apply Ok_inj in Hskills.
    set (found := skills (process_resume (ResumeProcessor set_order) key text))
      in *.
    clearbody found. subst found.
    destruct (Horder (matched_skills (lower text)
                        (skills_text_loop skills_keywords (lower text) text)))
      as [Hnd Hin].
    etransitivity.
    { apply NoDup_incl_length; [exact Hnd|].
      intros x Hx. exact (proj1 (Hin x) Hx). }
    unfold matched_skills. rewrite length_map.
    etransitivity; [apply filter_length_le|]. reflexivity.
  - change (lit "Javascript") with (Py.title (lit "javascript")).
    change (lit "Java") with (Py.title (lit "java")).
    rewrite !skill_in_profile;
      try exact Horder; try (vm_compute; tauto).
    intros H. apply contains_true in H. destruct H as (a & b & ->).
    change (lit "javascript") with (lit "java" ++ lit "script").
    rewrite <- app_assoc. apply contains_app.
  - change (lit "Postgresql") with (Py.title (lit "postgresql")).
    change (lit "Sql") with (Py.title (lit "sql")).
    rewrite !skill_in_profile;
      try exact Horder; try (vm_compute; tauto).
    intros H. apply contains_true in H. destruct H as (a & b & ->).
    change (a ++ lit "postgresql" ++ b)
      with (a ++ lit "postgre" ++ (lit "sql" ++ b)).
    rewrite app_assoc. apply contains_app.
Qed.

Lemma skills_bounded_and_nested_witness :
  In (lit "Java")
    (skills (process_resume (ResumeProcessor first_occurrences) None
               (lit "Skills: JavaScript and PostgreSQL"))).
Proof.
  refine (proj1 (proj2 (skills_bounded_and_nested None
                          (lit "Skills: JavaScript and PostgreSQL")
                          first_occurrences_enumerates)) _).
  vm_compute. tauto.
Defined.

(** ** The profile assembler as a whole *)

(** X9. The hosted extraction is a stub that returns nothing: whether the API
    key is set, and to what, never changes the profile. *)
Theorem hf_api_key_has_no_effect :
  forall (self : Locators) (key1 key2 : option str) (resume_text : str),
    process_resume self key1 resume_text
    = process_resume self key2 resume_text.
Proof. intros. now rewrite !process_resume_rules. Qed.

Lemma no_keyword_in_lines (keywords : list str) (text : str) :
  any_in keywords (lower text) = false ->
  forall line, In line (split newline text) ->
               any_in keywords (lower line) = false.
Proof.
  intros Hnone line Hline.
  destruct (any_in keywords (lower line)) eqn:E; trivial.
  rewrite (@keyword_of_line keywords text line Hline E) in Hnone.
  discriminate.
Qed.

Lemma filter_none {A : Type} (f : A -> bool) (l : list A) :
  existsb f l = false -> filter f l = [].
Proof.
  induction l as [|x l IH]; cbn [existsb filter]; trivial.
  intros H. apply orb_false_iff in H. destruct H as [-> H]. auto.
Qed.

Lemma enumeration_of_nil (set_order : list str -> list str) :
  set_enumeration set_order -> set_order [] = [].
Proof.
  intros H. destruct (H []) as [_ Hin].
  destruct (set_order []) as [|x l]; trivial.
  destruct (proj1 (Hin x) (or_introl eq_refl)).
Qed.

(** X10. A field is filled only from a text that holds one of its keywords:
    when the lower-cased text contains no education keyword the education
    mapping is empty, and likewise for experience, certifications,
    projects and hobbies; when it contains no vocabulary token there are
    no skills. *)
Theorem fields_need_their_keywords :
  forall (set_order : list str -> list str) (hf_api_key : option str)
         (resume_text : str),
    set_enumeration set_order ->
    let p := process_resume (ResumeProcessor set_order) hf_api_key
               resume_text in
    (any_in education_keywords (lower resume_text) = false ->
     education p = {| degree := None; year := None |})
    /\ (any_in experience_keywords (lower resume_text) = false ->
        experience p = {| title := None |})
    /\ (any_in common_skills (lower resume_text) = false -> skills p = [])
    /\ (any_in cert_keywords (lower resume_text) = false ->
        certifications p = [])
    /\ (any_in project_keywords (lower resume_text) = false ->
        projects p = [])
    /\ (any_in hobby_keywords (lower resume_text) = false -> hobbies p = []).
Proof.
  intros set_order key text Horder p.
  destruct (process_resume_locators set_order key text)
    as (Hed & Hex & Hsk & Hce & Hpr & Hho & _).
  fold p in Hed, Hex, Hsk, Hce, Hpr, Hho. clearbody p.
  split; [|split; [|split; [|split; [|split]]]]; intros Hnone.
  - unfold _extract_education in Hed. apply Ok_inj in Hed. rewrite <- Hed.
    now apply education_loop_entries, no_keyword_in_lines.
  - unfold _extract_experience in Hex.
    destruct (experience_loop_title _ _ _ Hex) as [_ H].
    specialize (H (no_keyword_in_lines _ _ Hnone)).
    destruct (experience p) as [t]. cbn [title] in H. now subst t.
  - rewrite extract_skills_of_text in Hsk. apply Ok_inj in Hsk.
    rewrite <- Hsk.
    unfold any_in in Hnone. rewrite (filter_none _ _ Hnone).
    now apply enumeration_of_nil.
  - unfold _extract_certifications in Hce. apply Ok_inj in Hce.
    rewrite <- Hce.
    destruct (certifications_loop_entries (split newline text)) as [_ H].
    now rewrite (H (no_keyword_in_lines _ _ Hnone)).
  - unfold _extract_projects in Hpr.
    destruct (projects_loop_ok (split newline text) (split newline text) 0)
      as [r Hr].
    rewrite Hr in Hpr. cbn [bind] in Hpr. apply Ok_inj in Hpr.
    rewrite <- Hpr.
    destruct (projects_loop_entries _ _ _ Hr) as [_ H].
    now rewrite (H (no_keyword_in_lines _ _ Hnone)).
  - unfold _extract_hobbies in Hho.
    destruct (hobbies_loop_entries _ Hho) as [_ H].
    exact (H (no_keyword_in_lines _ _ Hnone)).
Qed.

Lemma fields_need_their_keywords_witness :
  hobbies (process_resume (ResumeProcessor first_occurrences) None
             (lit "Jane Roe, Python developer"))
  = [].
Proof.
  apply (fields_need_their_keywords None (lit "Jane Roe, Python developer")
           first_occurrences_enumerates).
  reflexivity.
Defined.

(** ** The text normalizer and the upload checks *)

Section Normalizer.

Variable pdf_pages : list Byte.byte -> outcome (list str).
Variable docx_paragraphs : list Byte.byte -> outcome (list str).

Lemma extract_text_trimmed (file_content : list Byte.byte) (file_ext text : str) :
  extract_text pdf_pages docx_paragraphs file_content file_ext = Returned text ->
  trimmed text.
Proof.
  unfold extract_text, _extract_from_pdf, _extract_from_docx.
  destruct (Py.eqb file_ext (lit "pdf")).
  - destruct (pdf_pages file_content) as [pages|m]; [|discriminate].
    intros [= <-]. apply strip_trimmed.
  - destruct (Py.eqb file_ext (lit "docx")); [|discriminate].
    destruct (docx_paragraphs file_content) as [paragraphs|m];
      [|discriminate].
    intros [= <-]. apply strip_trimmed.
Qed.

(** X11. Whatever the document libraries do: a file type other than "pdf" and
    "docx" (in lower case) fails as unsupported, without the file being
    read; every failure carries a message that starts with "Failed to
    extract text from file: "; and a text that is returned has no white
    space at either end. *)
Theorem extract_text_outcomes :
  forall (file_content : list Byte.byte) (file_ext : str),
    (file_ext <> lit "pdf" -> file_ext <> lit "docx" ->
     extract_text pdf_pages docx_paragraphs file_content file_ext
     = Failed (lit "Failed to extract text from file: "
               ++ lit "Unsupported file type: " ++ file_ext))
    /\ (forall message,
          extract_text pdf_pages docx_paragraphs file_content file_ext
          = Failed message ->
          startswith (lit "Failed to extract text from file: ") message
          = true)
    /\ (forall text,
          extract_text pdf_pages docx_paragraphs file_content file_ext
          = Returned text ->
          trimmed text).
Proof.
  intros content ext. unfold extract_text. split; [|split].
  - intros Hpdf Hdocx.
    destruct (Py.eqb ext (lit "pdf")) eqn:E1;
      [apply eqb_true_iff in E1; contradiction|].
    destruct (Py.eqb ext (lit "docx")) eqn:E2;
      [apply eqb_true_iff in E2; contradiction|].
    reflexivity.
  - intros message.
    destruct (if Py.eqb ext (lit "pdf") then _ else _) as [t|m];
      [discriminate|].
    intros H. apply Failed_inj in H. subst message. apply startswith_app.
  - intros text. apply extract_text_trimmed.
Qed.

End Normalizer.

Lemma extract_text_outcomes_witness :
  extract_text (fun _ => Returned [lit " Jane Roe "])
    (fun _ => Returned []) [] (lit "PDF")
  = Failed (lit "Failed to extract text from file: Unsupported file type: PDF").
Proof.
  apply (extract_text_outcomes (fun _ => Returned [lit " Jane Roe "])
           (fun _ => Returned []) [] (lit "PDF")); discriminate.
Defined.

Lemma split_from_whole (c : ascii) (s : str) :
  forall cur : str,
    lacks c s -> split_from [c] s 0 cur = [rev cur ++ s].
Proof.
  induction s as [|x s IH]; intros cur Hs; cbn [split_from].
  - now rewrite app_nil_r.
  - cbn [startswith]. rewrite andb_true_r.
    destruct (Ascii.eqb c x) eqn:E.
    + apply Ascii.eqb_eq in E. subst x. destruct Hs. now left.
    + rewrite IH by (intros H; apply Hs; now right).
      cbn [rev]. now rewrite <- app_assoc.
Qed.

Lemma last_cons_nonempty {A : Type} (x d : A) (l : list A) :
  l <> [] -> last (x :: l) d = last l d.
Proof. destruct l; [congruence|reflexivity]. Qed.

Lemma split_from_last (c : ascii) (stem ext : str) :
  forall cur : str,
    lacks c ext ->
    last (split_from [c] (stem ++ c :: ext) 0 cur) [] = ext.
Proof.
  induction stem as [|x stem IH]; intros cur Hext; cbn [app split_from].
  - cbn [startswith]. rewrite Ascii.eqb_refl. cbn [andb List.length Nat.sub].
    now rewrite split_from_whole.
  - cbn [startswith]. rewrite andb_true_r.
    destruct (Ascii.eqb c x); [|now apply IH].
    cbn [List.length Nat.sub].
    rewrite last_cons_nonempty by apply split_from_nonempty. now apply IH.
Qed.

(** X12. The file type is what follows the last dot of the file name, in lower
    case, and the whole name when it has no dot; and when the upload
    checks accept a file name, [extract_text] does not fail on that type
    as unsupported: it returns or fails as the PDF or DOCX reader does. *)
Theorem upload_file_type :
  forall (pdf_pages docx_paragraphs : list Byte.byte -> outcome (list str))
         (file_content : list Byte.byte) (stem ext filename : str),
    (lacks "."%char ext ->
     upload_file_ext (stem ++ lit "." ++ ext) = lower ext)
    /\ (lacks "."%char filename -> upload_file_ext filename = lower filename)
    /\ (upload_accepts filename = true ->
        extract_text pdf_pages docx_paragraphs file_content
          (upload_file_ext filename)
        = match
            (if Py.eqb (upload_file_ext filename) (lit "pdf")
             then _extract_from_pdf pdf_pages file_content
             else _extract_from_docx docx_paragraphs file_content)
          with
          | Returned text => Returned text
          | Failed message =>
              Failed (lit "Failed to extract text from file: " ++ message)
          end).
Proof.
  intros pdf_pages docx_paragraphs content stem ext filename.
  split; [|split].
  - intros Hext. unfold upload_file_ext, split.
    change (lit ".") with ["."%char].
    change (stem ++ ["."%char] ++ ext) with (stem ++ "."%char :: ext).
    now rewrite split_from_last.
  - intros Hname. unfold upload_file_ext, split.
    change (lit ".") with ["."%char].
    now rewrite split_from_whole.
  - unfold upload_accepts, extract_text. intros H.
    apply andb_true_iff in H. destruct H as [_ H].
    destruct (Py.eqb (upload_file_ext filename) (lit "pdf")); trivial.
    cbn [orb] in H. now rewrite H.
Qed.

Lemma upload_file_type_witness :
  upload_file_ext (lit "jane.roe.cv" ++ lit "." ++ lit "PDF") = lit "pdf".
Proof.
  apply (upload_file_type (fun _ => Returned []) (fun _ => Returned []) []
           (lit "jane.roe.cv") (lit "PDF") []).
  vm_compute. intuition discriminate.
Defined.

(** X13. A text as the normalizer returns it, of at most 300 characters, with
    no introduction keyword and no blank line, is its own introduction. *)
Theorem short_plain_text_is_its_introduction :
  forall (pdf_pages docx_paragraphs : list Byte.byte -> outcome (list str))
         (file_content : list Byte.byte) (file_ext : str)
         (set_order : list str -> list str) (hf_api_key : option str)
         (resume_text : str),
    extract_text pdf_pages docx_paragraphs file_content file_ext
    = Returned resume_text ->
    List.length resume_text <= 300 ->
    any_in intro_keywords (lower resume_text) = false ->
    contains paragraph_break resume_text = false ->
    introduction
      (process_resume (ResumeProcessor set_order) hf_api_key resume_text)
    = resume_text.
Proof.
  intros pdf_pages docx_paragraphs content ext set_order key text
    Hread Hlen Hkw Hbreak.
  destruct (process_resume_locators set_order key text)
    as (_ & _ & _ & _ & _ & _ & Hintro).
  unfold _extract_introduction in Hintro.
  rewrite (@introduction_loop_none intro_keywords text (lower text) Hkw),
    Hbreak in Hintro.
  cbn [bind] in Hintro. apply Ok_inj in Hintro. rewrite <- Hintro.
  assert (Htrim : trimmed text).
  { eapply extract_text_trimmed. exact Hread. }
  rewrite (@slice_short text 300) by lia.
  rewrite Htrim. apply slice_short. lia.
Qed.

Lemma short_plain_text_is_its_introduction_witness :
  introduction
    (process_resume (ResumeProcessor first_occurrences) None
       (lit "Jane Roe, Python developer"))
  = lit "Jane Roe, Python developer".
Proof.
  apply (@short_plain_text_is_its_introduction
           (fun _ => Returned [lit "  Jane Roe, Python developer "])
           (fun _ => Returned []) [] (lit "pdf") first_occurrences None
           (lit "Jane Roe, Python developer"));
    try reflexivity.
  vm_compute. lia.
Defined.

(** ** The context of a question *)

Lemma join_nil (sep : str) (parts : list str) :
  Forall (fun p => p <> []) parts -> join sep parts = [] -> parts = [].
Proof.
  intros Hall. destruct Hall as [|p rest Hp _]; trivial.
  cbn [join]. destruct rest; intros H; [contradiction|].
  apply app_eq_nil in H. destruct H. contradiction.
Qed.

(** Every part of a joined text is a substring of it. *)
Lemma join_inside (sep part : str) (parts : list str) :
  In part parts -> exists a b, join sep parts = a ++ part ++ b.
Proof.
  induction parts as [|p rest IH]; [intros []|].
  intros [->|Hin].
  - exists []. destruct rest; cbn [join app].
    + exists []. now rewrite app_nil_r.
    + eexists. reflexivity.
  - destruct (IH Hin) as (a & b & E). destruct rest as [|q rest'].
    + destruct Hin.
    + cbn [join] in *. exists (p ++ sep ++ a), b.
      rewrite E. now rewrite <- !app_assoc.
Qed.

Lemma context_part_nonempty (present : bool) (c : ascii) (label rendering : str) :
  Forall (fun p => p <> []) (context_part present (c :: label) rendering).
Proof.
  destruct present; cbn [context_part]; constructor; [discriminate|constructor].
Qed.

Lemma context_part_nil (present : bool) (label rendering : str) :
  context_part present label rendering = [] -> present = false.
Proof. destruct present; [discriminate|reflexivity]. Qed.

Lemma truthy_false (s : str) : truthy s = false <-> s = [].
Proof. destruct s; split; congruence || reflexivity || discriminate. Qed.

Lemma nonempty_false {A : Type} (l : list A) : nonempty l = false <-> l = [].
Proof. destruct l; split; congruence || reflexivity || discriminate. Qed.

(** X14. The context is empty exactly when every field of the profile is:
    an empty field gives no line, and a field that is not empty gives a
    line that starts with its label. *)
Theorem context_empty_iff_profile_empty :
  forall candidate_data : CandidateProfile,
    _prepare_context candidate_data = []
    <-> (introduction candidate_data = []
         /\ education candidate_data = {| degree := None; year := None |}
         /\ experience candidate_data = {| title := None |}
         /\ skills candidate_data = []
         /\ certifications candidate_data = []
         /\ projects candidate_data = []
         /\ hobbies candidate_data = []).
Proof.
  intros [[d y] [t] sk ho ce pr it]. unfold _prepare_context.
  cbn [introduction education experience skills certifications projects
       hobbies].
  split.
  - intros H. apply join_nil in H.
    + repeat (apply app_eq_nil in H; destruct H as [?H H]).
      repeat match goal with
             | X : context_part _ _ _ = [] |- _ =>
                 apply context_part_nil in X
             end.
      repeat match goal with
             | X : truthy _ = false |- _ => apply truthy_false in X
             | X : nonempty _ = false |- _ => apply nonempty_false in X
             end.
      subst.
      destruct d, y, t; cbn in *; try discriminate. repeat split.
    + repeat (apply Forall_app; split); apply context_part_nonempty.
  - intros (-> & [= -> ->] & [= ->] & -> & -> & -> & ->). reflexivity.
Qed.

Lemma context_empty_iff_profile_empty_witness :
  _prepare_context python_profile <> [].
Proof.
  intros H. apply context_empty_iff_profile_empty in H.
  destruct H as (Hintro & _). discriminate Hintro.
Defined.

(** ** The fallback answerer: the skills branch *)

Lemma up_to_prefix (stop : ascii -> bool) (s : str) :
  exists rest, s = up_to stop s ++ rest.
Proof.
  induction s as [|c s [rest IH]]; cbn [up_to].
  - now exists [].
  - destruct (stop c); [now exists (c :: s)|].
    exists rest. cbn [app]. now rewrite <- IH.
Qed.

Lemma up_to_stops (stop : ascii -> bool) (s : str) :
  Forall (fun c => stop c = false) (up_to stop s).
Proof.
  induction s as [|c s IH]; cbn [up_to]; [constructor|].
  destruct (stop c) eqn:E; constructor; trivial.
Qed.

Lemma newline_is_space (c : ascii) : is_newline c = true -> is_space c = true.
Proof.
  unfold is_newline. intros H. apply Ascii.eqb_eq in H. now subst c.
Qed.

(** Group 1 of the skills pattern: not empty, within one line, and a
    piece of the text after the marker. *)
Lemma match_skills_tail_group (t g : str) :
  match_skills_tail t = Some g ->
  g <> []
  /\ Forall (fun c => is_newline c = false) g
  /\ exists a b, t = a ++ g ++ b.
Proof.
  revert g. induction t as [|c t IH]; intros g; cbn [match_skills_tail];
    [discriminate|].
  assert (Hhere : is_newline c = false ->
                  up_to is_newline (c :: t) <> []
                  /\ Forall (fun x => is_newline x = false)
                       (up_to is_newline (c :: t))
                  /\ exists a b, c :: t = a ++ up_to is_newline (c :: t) ++ b).
  { intros Hc. split; [cbn [up_to]; now rewrite Hc|].
    split; [apply up_to_stops|].
    destruct (up_to_prefix is_newline (c :: t)) as [rest E].
    now exists [], rest. }
  destruct (is_space c) eqn:S.
  - destruct (match_skills_tail t) as [g'|].
    + intros [= <-]. destruct (IH g' eq_refl) as (Hne & Hall & a & b & E).
      split; trivial. split; trivial. exists (c :: a), b. now rewrite E.
    + destruct (is_newline c) eqn:N; [discriminate|].
      intros [= <-]. now apply Hhere.
  - intros [= <-]. apply Hhere.
    destruct (is_newline c) eqn:N; trivial.
    apply newline_is_space in N. congruence.
Qed.

Lemma match_skills_tail_some (t : str) :
  (exists c, In c t /\ is_newline c = false) ->
  exists g, match_skills_tail t = Some g.
Proof.
  induction t as [|c t IH]; intros (x & Hin & Hx); [destruct Hin|].
  cbn [match_skills_tail]. destruct (is_space c); [|eauto].
  destruct (match_skills_tail t) as [g|] eqn:E; [eauto|].
  destruct (is_newline c) eqn:N; [|eauto].
  destruct Hin as [->|Hin]; [congruence|].
  destruct IH as [g Hg]; [eauto|discriminate].
Qed.

Lemma match_literal_suffix (p s t : str) :
  match_literal_ignorecase p s = Some t -> exists pre, s = pre ++ t.
Proof.
  revert s. induction p as [|a p IH]; intros s; cbn [match_literal_ignorecase].
  - intros [= <-]. now exists [].
  - destruct s as [|b s]; [discriminate|].
    destruct (Ascii.eqb (lower_char a) (lower_char b)); [|discriminate].
    intros H. destruct (IH _ H) as [pre ->]. now exists (b :: pre).
Qed.

Lemma search_skills_group (s g : str) :
  search_skills s = Some g ->
  g <> []
  /\ Forall (fun c => is_newline c = false) g
  /\ exists a b, s = a ++ g ++ b.
Proof.
  induction s as [|c s IH]; cbn [search_skills].
  - cbn [match_literal_ignorecase lit list_ascii_of_string]. discriminate.
  - destruct (match_literal_ignorecase (lit "skills:") (c :: s))
      as [tail|] eqn:M.
    + destruct (match_skills_tail tail) as [g'|] eqn:T.
      * intros [= <-]. destruct (@match_skills_tail_group _ _ T)
          as (Hne & Hall & a & b & E).
        split; trivial. split; trivial.
        destruct (@match_literal_suffix _ _ _ M) as [pre P].
        exists (pre ++ a), b. rewrite P, E. now rewrite <- app_assoc.
      * intros H. destruct (IH H) as (Hne & Hall & a & b & E).
        split; trivial. split; trivial. exists (c :: a), b. now rewrite E.
    + intros H. destruct (IH H) as (Hne & Hall & a & b & E).
      split; trivial. split; trivial. exists (c :: a), b. now rewrite E.
Qed.

Lemma search_skills_some (a t : str) :
  (exists c, In c t /\ is_newline c = false) ->
  exists g, search_skills (a ++ lit "skills:" ++ t) = Some g.
Proof.
  intros Ht. induction a as [|c a IH].
  - change ([] ++ lit "skills:" ++ t)
      with ("s"%char :: (lit "kills:" ++ t)).
    cbn [search_skills].
    change (match_literal_ignorecase (lit "skills:")
              ("s"%char :: (lit "kills:" ++ t))) with (Some t).
    destruct (@match_skills_tail_some t Ht) as [g ->]. eauto.
  - cbn [app search_skills].
    destruct (match match_literal_ignorecase (lit "skills:")
                      (c :: a ++ lit "skills:" ++ t) with
              | Some tail => match_skills_tail tail
              | None => None
              end); [eauto|exact IH].
Qed.

(** X15. In the skills branch the answer is the pointer to the profile, or
    "The candidate has the following skills: " followed by a piece of the
    lower-cased prompt that is not empty and has no line break. *)
Theorem fallback_skills_answer_shape :
  forall prompt : str,
    contains (lit "graduation") (lower prompt) = false ->
    contains (lit "graduate") (lower prompt) = false ->
    contains (lit "skill") (lower prompt) = true ->
    _fallback_answer prompt = skills_pointer
    \/ exists g,
         _fallback_answer prompt
         = lit "The candidate has the following skills: " ++ g
         /\ g <> []
         /\ Forall (fun c => is_newline c = false) g
         /\ exists a b, lower prompt = a ++ g ++ b.
Proof.
  intros prompt Hgraduation Hgraduate Hskill. unfold _fallback_answer.
  rewrite Hgraduation, Hgraduate, Hskill. cbn [orb].
  destruct (contains (lit "skills:") (lower prompt)); [|now left].
  destruct (search_skills (lower prompt)) as [g|] eqn:E; [|now left].
  right. exists g. split; trivial. exact (@search_skills_group _ _ E).
Qed.

Lemma fallback_skills_answer_shape_witness :
  _fallback_answer (lit "Which skill? SKILLS: Go, Rust") = skills_pointer
  \/ exists g,
       _fallback_answer (lit "Which skill? SKILLS: Go, Rust")
       = lit "The candidate has the following skills: " ++ g
       /\ g <> []
       /\ Forall (fun c => is_newline c = false) g
       /\ exists a b,
            lower (lit "Which skill? SKILLS: Go, Rust") = a ++ g ++ b.
Proof.
  apply (fallback_skills_answer_shape (lit "Which skill? SKILLS: Go, Rust"));
    reflexivity.
Defined.

(** The prompt is the context and the question between three fixed
    texts. *)
Lemma create_prompt_parts (question context : str) :
  exists head middle,
    _create_prompt question context
    = head ++ context ++ middle ++ question ++ newline ++ newline
      ++ lit "Answer:".
Proof.
  exists (lit "Based on the following candidate information, answer the question accurately and concisely."
          ++ newline ++ newline ++ lit "Candidate Information:" ++ newline),
    (newline ++ newline ++ lit "Question: ").
  unfold _create_prompt. now rewrite <- !app_assoc.
Qed.

Lemma in_skills_part (p : CandidateProfile) :
  skills p <> [] ->
  exists a b,
    _prepare_context p
    = a ++ (lit "Skills: " ++ join (lit ", ") (skills p)) ++ b.
Proof.
  intros Hne. unfold _prepare_context. apply join_inside.
  do 3 (apply in_or_app; right). apply in_or_app. left.
  destruct (skills p); [contradiction|]. now left.
Qed.

(** X16. The context is part of what the fallback answerer searches, so a
    profile that has skills turns every question into a skills question:
    whatever the question is, as long as neither it nor the profile
    mentions "graduation" or "graduate", the fallback answer is "The
    candidate has the following skills: " followed by a one-line text
    that is not empty. *)
Theorem profile_with_skills_gets_skills_answer :
  forall (question : str) (candidate_data : CandidateProfile),
    skills candidate_data <> [] ->
    let prompt := _create_prompt question (_prepare_context candidate_data) in
    contains (lit "graduation") (lower prompt) = false ->
    contains (lit "graduate") (lower prompt) = false ->
    exists g,
      _fallback_answer prompt
      = lit "The candidate has the following skills: " ++ g
      /\ g <> []
      /\ Forall (fun c => is_newline c = false) g.
Proof.
  intros question p Hskills prompt Hgraduation Hgraduate.
  destruct (@in_skills_part p Hskills) as (a & b & Hcontext).
  destruct (create_prompt_parts question (_prepare_context p))
    as (head & middle & Hprompt).
  fold prompt in Hprompt. rewrite Hcontext in Hprompt.
  set (J := join (lit ", ") (skills p)) in *.
  assert (Hlower :
    lower prompt
    = (lower head ++ lower a) ++ lit "skills:"
      ++ (lit " " ++ lower J ++ lower b ++ lower middle ++ lower question
          ++ newline ++ newline ++ lit "answer:")).
  { rewrite Hprompt. rewrite !lower_app, <- !app_assoc. reflexivity. }
  assert (Htail : exists c,
            In c (lit " " ++ lower J ++ lower b ++ lower middle
                  ++ lower question ++ newline ++ newline ++ lit "answer:")
            /\ is_newline c = false).
  { exists "a"%char. split; [|reflexivity].
    do 6 (apply in_or_app; right). apply in_or_app. right. now left. }
  destruct (@search_skills_some (lower head ++ lower a) _ Htail) as [g Hg].
  rewrite <- Hlower in Hg.
  assert (Hmarker : contains (lit "skills:") (lower prompt) = true).
  { rewrite Hlower. apply contains_app. }
  assert (Hskill : contains (lit "skill") (lower prompt) = true).
  { rewrite Hlower.
    change (lit "skills:") with (lit "skill" ++ lit "s:").
    rewrite <- (app_assoc (lit "skill")). apply contains_app. }
  exists g. unfold _fallback_answer.
  rewrite Hgraduation, Hgraduate, Hskill, Hmarker, Hg. cbn [orb].
  split; [reflexivity|].
  destruct (@search_skills_group _ _ Hg) as (Hne & Hall & _). now split.
Qed.

Lemma profile_with_skills_gets_skills_answer_witness :
  exists g,
    _fallback_answer
      (_create_prompt (lit "What are the hobbies of the candidate?")
         (_prepare_context python_profile))
    = lit "The candidate has the following skills: " ++ g
    /\ g <> []
    /\ Forall (fun c => is_newline c = false) g.
Proof.
  apply (@profile_with_skills_gets_skills_answer
           (lit "What are the hobbies of the candidate?") python_profile).
  - discriminate.
  - reflexivity.
  - reflexivity.
Defined.

(** ** The fallback answerer: the graduation branch *)

Lemma digit_is_word (c : ascii) : is_digit c = true -> is_word c = true.
Proof. intros H. unfold is_word. rewrite H. now rewrite orb_true_r. Qed.

Lemma match_year_at_token (y b : str) :
  year_token y -> starts_off_word b ->
  exists g, match_year false (y ++ b) = Some g.
Proof.
  intros (c1 & c2 & d1 & d2 & -> & Hc & Hd1 & Hd2) Hb.
  unfold starts_off_word in Hb. cbn [app]. unfold match_year.
  rewrite Hd1, Hd2, (@digit_is_word d2 Hd2), Hb.
  destruct Hc as [E|E];
    [change (lit "19") with ["1"%char; "9"%char] in E
    |change (lit "20") with ["2"%char; "0"%char] in E];
    injection E as -> ->; eexists; reflexivity.
Qed.

(** A year that stands between characters that are not word characters
    is matched, whatever comes before it. *)
Lemma findall_year_finds (y b : str) :
  year_token y -> starts_off_word b ->
  forall (a : str) (prev_word : bool) (skip : nat),
    skip <= List.length a ->
    match rev a with
    | [] => prev_word = false
    | c :: _ => is_word c = false
    end ->
    findall_year_from prev_word (a ++ y ++ b) skip <> [].
Proof.
  intros Hy Hb. induction a as [|x a IH]; intros prev_word skip Hskip Hend.
  - cbn [List.length] in Hskip. replace skip with 0 by lia.
    cbn [rev] in Hend. subst prev_word. cbn [app].
    destruct (@match_year_at_token _ _ Hy Hb) as [g Hg].
    destruct Hy as (c1 & c2 & d1 & d2 & -> & _).
    cbn [app] in *. cbn [findall_year_from]. rewrite Hg. discriminate.
  - assert (Hnext : match rev a with
                    | [] => is_word x = false
                    | c :: _ => is_word c = false
                    end).
    { cbn [rev] in Hend. destruct (rev a); exact Hend. }
    cbn [app findall_year_from]. destruct skip as [|k].
    + destruct (match_year prev_word (x :: a ++ y ++ b)); [discriminate|].
      apply IH; [lia|exact Hnext].
    + apply IH; [cbn [List.length] in Hskip; lia|exact Hnext].
Qed.

Lemma graduation_answer_with_year (prompt : str) :
  contains (lit "graduation") (lower prompt)
  || contains (lit "graduate") (lower prompt) = true ->
  contains (lit "education") (lower prompt) = true ->
  findall_year prompt <> [] ->
  _fallback_answer prompt = lit "The candidate finished graduation in 19."
  \/ _fallback_answer prompt = lit "The candidate finished graduation in 20.".
Proof.
  intros Hgrad Hedu Hfound. unfold _fallback_answer.
  rewrite Hgrad, Hedu.
  pose proof (findall_year_century prompt false 0) as Hall.
  fold (findall_year prompt) in Hall. apply Forall_rev in Hall.
  destruct (rev (findall_year prompt)) as [|last_year rest] eqn:R.
  - apply (f_equal (@rev str)) in R. rewrite rev_involutive in R.
    contradiction.
  - inversion Hall as [|? ? [-> | ->] _]; [now left|now right].
Qed.

(** X17. The counterpart of the not-available case: when the prompt mentions
    graduation and education and holds a year 19dd or 20dd that stands
    between characters that are not word characters, the answer names the
    century of the last year matched: it ends with "in 19." or "in 20.". *)
Theorem year_token_gets_century_answer :
  forall before y after : str,
    year_token y ->
    ends_off_word before ->
    starts_off_word after ->
    let prompt := before ++ y ++ after in
    contains (lit "graduation") (lower prompt)
    || contains (lit "graduate") (lower prompt) = true ->
    contains (lit "education") (lower prompt) = true ->
    _fallback_answer prompt = lit "The candidate finished graduation in 19."
    \/ _fallback_answer prompt
       = lit "The candidate finished graduation in 20.".
Proof.
  intros before y after Hy Hbefore Hafter prompt Hgrad Hedu.
  apply graduation_answer_with_year; trivial.
  unfold findall_year. apply findall_year_finds; trivial; [lia|].
  unfold ends_off_word, next_is_word in Hbefore.
  destruct (rev before); [reflexivity|exact Hbefore].
Qed.

Lemma year_token_gets_century_answer_witness :
  _fallback_answer
    (lit "Education: MSc (" ++ lit "1998" ++ lit "). Graduation year?")
  = lit "The candidate finished graduation in 19."
  \/ _fallback_answer
       (lit "Education: MSc (" ++ lit "1998" ++ lit "). Graduation year?")
     = lit "The candidate finished graduation in 20.".
Proof.
  apply (@year_token_gets_century_answer
           (lit "Education: MSc (") (lit "1998") (lit "). Graduation year?")).
  - exists "1"%char, "9"%char, "9"%char, "8"%char.
    repeat split. now left.
  - reflexivity.
  - reflexivity.
  - reflexivity.
  - reflexivity.
Defined.

Lemma year_of_range_is_token (y : Z) :
  (2000 <= y <= 2029)%Z -> year_token (str_of_int y).
Proof.
  intros Hy.
  assert (H : In y (range 2000 2030)).
  { unfold range. apply in_map_iff. exists (Z.to_nat (y - 2000)).
    split; [lia|]. apply in_seq. lia. }
  vm_compute in H.
  repeat (destruct H as [<-|H];
          [eexists _, _, _, _;
           split; [vm_compute; reflexivity|];
           split; [right; reflexivity|split; reflexivity]|]).
  destruct H.
Qed.

Lemma join_last (sep x : str) (l : list str) :
  exists a, join sep (l ++ [x]) = a ++ x.
Proof.
  induction l as [|p l [a IH]].
  - now exists [].
  - exists (p ++ sep ++ a). cbn [app].
    destruct (l ++ [x]) as [|q r] eqn:E.
    + now destruct l.
    + cbn [join] in *. rewrite IH. now rewrite <- !app_assoc.
Qed.

Lemma dumps_education_year (e : Education) (y : Z) :
  year e = Some y ->
  exists a, dumps_education e = (a ++ lit " ") ++ str_of_int y ++ lit "}".
Proof.
  intros Hy. unfold dumps_education, json_object. rewrite Hy.
  destruct (join_last (lit ", ")
              (json_member (lit "year") (str_of_int y))
              (match degree e with
               | Some d => [json_member (lit "degree") (json_string d)]
               | None => []
               end)) as [a ->].
  unfold json_member.
  exists (lit "{" ++ a ++ json_string (lit "year") ++ lit ":").
  rewrite <- !app_assoc. reflexivity.
Qed.

Lemma in_education_part (p : CandidateProfile) :
  education_set (education p) = true ->
  exists a b,
    _prepare_context p
    = a ++ (lit "Education: " ++ dumps_education (education p)) ++ b.
Proof.
  intros Hset. unfold _prepare_context. apply join_inside.
  apply in_or_app. right. apply in_or_app. left.
  rewrite Hset. now left.
Qed.

(** X18. A profile whose education has a year of 2000..2029: the context
    writes the year between a space and a closing brace, so for every
    question that mentions "graduation" or "graduate" the fallback answer
    is "The candidate finished graduation in 19." or "... in 20."; the
    not-available message is never given and the year itself is never
    named. *)
Theorem profile_year_gets_century_answer :
  forall (question : str) (candidate_data : CandidateProfile) (y : Z),
    year (education candidate_data) = Some y ->
    (2000 <= y <= 2029)%Z ->
    contains (lit "graduation") (lower question)
    || contains (lit "graduate") (lower question) = true ->
    let prompt := _create_prompt question (_prepare_context candidate_data) in
    _fallback_answer prompt = lit "The candidate finished graduation in 19."
    \/ _fallback_answer prompt
       = lit "The candidate finished graduation in 20.".
Proof.
  intros question p y Hyear Hy Hquestion prompt.
  assert (Hset : education_set (education p) = true).
  { unfold education_set. rewrite Hyear. now destruct (degree (education p)). }
  destruct (@in_education_part p Hset) as (ca & cb & Hcontext).
  destruct (@dumps_education_year (education p) y Hyear) as [da Hdumps].
  destruct (create_prompt_parts question (_prepare_context p))
    as (head & middle & Hprompt).
  fold prompt in Hprompt. clearbody prompt.
  rewrite Hcontext, Hdumps in Hprompt.
  set (tail := newline ++ newline ++ lit "Answer:") in *.
  assert (Hsplit :
    prompt
    = ((head ++ ca ++ lit "Education: " ++ da) ++ lit " ")
      ++ str_of_int y
      ++ (lit "}" ++ cb ++ middle ++ question ++ tail)).
  { rewrite Hprompt. rewrite <- !app_assoc. reflexivity. }
  apply graduation_answer_with_year.
  - replace prompt with ((head ++ _prepare_context p ++ middle)
                          ++ question ++ tail).
    + apply orb_true_iff in Hquestion. apply orb_true_iff.
      destruct Hquestion as [H|H]; [left|right];
        now apply contains_lower_inside.
    + rewrite Hprompt, Hcontext, Hdumps. now rewrite <- !app_assoc.
  - replace prompt with ((head ++ ca) ++ lit "Education: "
                          ++ (da ++ lit " " ++ str_of_int y ++ lit "}" ++ cb
                              ++ middle ++ question ++ tail)).
    + now apply contains_lower_inside.
    + rewrite Hprompt. now rewrite <- !app_assoc.
  - rewrite Hsplit. unfold findall_year.
    apply findall_year_finds; [now apply year_of_range_is_token| |lia|].
    + reflexivity.
    + rewrite rev_app_distr. reflexivity.
Qed.

Lemma profile_year_gets_century_answer_witness :
  _fallback_answer
    (_create_prompt (lit "When did the candidate graduate?")
       (_prepare_context year_profile))
  = lit "The candidate finished graduation in 19."
  \/ _fallback_answer
       (_create_prompt (lit "When did the candidate graduate?")
          (_prepare_context year_profile))
     = lit "The candidate finished graduation in 20.".
Proof.
  refine (@profile_year_gets_century_answer
            (lit "When did the candidate graduate?") year_profile
            2018%Z eq_refl _ eq_refl).
  lia.
Defined.

(** ** The fallback answerer: the experience branch *)

Lemma lstrip_suffix (s : str) : exists ws, s = ws ++ lstrip s.
Proof.
  induction s as [|c s [ws IH]]; cbn [lstrip].
  - now exists [].
  - destruct (is_space c); [|now exists []].
    exists (c :: ws). cbn [app]. now rewrite <- IH.
Qed.

Lemma up_to_rest (stop : ascii -> bool) (s : str) :
  (exists c, In c s /\ stop c = true) ->
  exists c rest,
    skipn (List.length (up_to stop s)) s = c :: rest /\ stop c = true.
Proof.
  induction s as [|x s IH]; intros (c & Hin & Hc); [destruct Hin|].
  cbn [up_to]. destruct (stop x) eqn:E.
  - now exists x, s.
  - cbn [List.length skipn]. apply IH.
    destruct Hin as [->|Hin]; [congruence|eauto].
Qed.

Lemma close_brace_eq (c : ascii) : is_close_brace c = true -> c = "}"%char.
Proof. apply Ascii.eqb_eq. Qed.

Lemma match_experience_tail_group (s g : str) :
  match_experience_tail s = Some g -> brace_fragment s g.
Proof.
  unfold match_experience_tail.
  destruct (lstrip_suffix s) as [ws Hws].
  destruct (lstrip s) as [|c body]; [discriminate|].
  destruct (ascii_dec c "{"%char) as [->|Hc].
  - cbv beta iota zeta.
    destruct (up_to_prefix is_close_brace body) as [rest Hrest].
    pose proof (up_to_stops is_close_brace body) as Hall.
    set (inner := up_to is_close_brace body) in *. clearbody inner.
    subst body.
    assert (Hskip : skipn (List.length inner) (inner ++ rest) = rest).
    { rewrite skipn_app, skipn_all, Nat.sub_diag. reflexivity. }
    destruct inner as [|i inner']; [discriminate|]. rewrite Hskip.
    destruct rest as [|r rest']; [discriminate|].
    destruct (ascii_dec r "}"%char) as [->|Hr].
    + intros H. apply (f_equal (fun o => match o with
                                         | Some x => x
                                         | None => []
                                         end)) in H.
      cbv beta iota in H. subst g. exists (i :: inner').
      split; [reflexivity|]. split; [discriminate|]. split; [exact Hall|].
      exists ws, rest'. rewrite Hws.
      cbn [app]. rewrite <- !app_assoc. reflexivity.
    + destruct r as [[] [] [] [] [] [] [] []];
        try discriminate; now destruct Hr.
  - destruct c as [[] [] [] [] [] [] [] []];
      try discriminate; now destruct Hc.
Qed.

Lemma brace_fragment_inside (a text g : str) :
  brace_fragment text g -> brace_fragment (a ++ text) g.
Proof.
  intros (inner & Hg & Hne & Hall & x & y & ->).
  exists inner. repeat split; trivial.
  exists (a ++ x), y. now rewrite <- app_assoc.
Qed.

Lemma search_experience_cons (c : ascii) (s : str) :
  search_experience (c :: s)
  = match
      (if startswith (lit "experience:") (c :: s)
       then match_experience_tail (skipn 11 (c :: s))
       else None)
    with
    | Some g => Some g
    | None => search_experience s
    end.
Proof. reflexivity. Qed.

Lemma search_experience_group (s g : str) :
  search_experience s = Some g -> brace_fragment s g.
Proof.
  induction s as [|c s IH].
  - cbn [search_experience].
    change (startswith (lit "experience:") []) with false. discriminate.
  - rewrite search_experience_cons.
    destruct (startswith (lit "experience:") (c :: s)).
    + destruct (match_experience_tail (skipn 11 (c :: s))) as [g'|] eqn:T.
      * intros H. apply (f_equal (fun o => match o with
                                           | Some x => x
                                           | None => []
                                           end)) in H.
        cbv beta iota in H. subst g'.
        rewrite <- (firstn_skipn 11 (c :: s)).
        apply brace_fragment_inside.
        exact (@match_experience_tail_group _ _ T).
      * intros H. apply (brace_fragment_inside [c]). now apply IH.
    + intros H. apply (brace_fragment_inside [c]). now apply IH.
Qed.

Lemma match_experience_tail_some (c : ascii) (body : str) :
  is_close_brace c = false ->
  In "}"%char body ->
  exists g,
    match_experience_tail (lit " " ++ "{"%char :: c :: body) = Some g.
Proof.
  intros Hc Hin. unfold match_experience_tail.
  change (lstrip (lit " " ++ "{"%char :: c :: body))
    with ("{"%char :: c :: body).
  cbv beta iota zeta. cbn [up_to]. rewrite Hc. cbn [List.length skipn].
  destruct (@up_to_rest is_close_brace body) as (x & rest & -> & Hx).
  { exists "}"%char. now split. }
  apply close_brace_eq in Hx. subst x. eauto.
Qed.

Lemma search_experience_some (a t : str) :
  (exists g, match_experience_tail t = Some g) ->
  exists g, search_experience (a ++ lit "experience:" ++ t) = Some g.
Proof.
  intros [g Hg]. induction a as [|c a IH].
  - change ([] ++ lit "experience:" ++ t)
      with ("e"%char :: (lit "xperience:" ++ t)).
    rewrite search_experience_cons.
    change ("e"%char :: (lit "xperience:" ++ t))
      with (lit "experience:" ++ t).
    rewrite startswith_app.
    change (skipn 11 (lit "experience:" ++ t)) with t.
    rewrite Hg. eauto.
  - cbn [app]. rewrite search_experience_cons.
    destruct (if startswith (lit "experience:")
                   (c :: a ++ lit "experience:" ++ t)
              then match_experience_tail
                     (skipn 11 (c :: a ++ lit "experience:" ++ t))
              else None); [eauto|exact IH].
Qed.

(** X19. In the experience branch the answer is the pointer to the profile, or
    "Based on the candidate's experience: " followed by a piece of the
    lower-cased prompt that runs from an opening brace to the first
    closing brace after it, with something in between. *)
Theorem fallback_experience_answer_shape :
  forall prompt : str,
    contains (lit "graduation") (lower prompt) = false ->
    contains (lit "graduate") (lower prompt) = false ->
    contains (lit "skill") (lower prompt) = false ->
    contains (lit "experience") (lower prompt)
    || contains (lit "work") (lower prompt) = true ->
    _fallback_answer prompt = experience_pointer
    \/ exists g,
         _fallback_answer prompt
         = lit "Based on the candidate's experience: " ++ g
         /\ brace_fragment (lower prompt) g.
Proof.
  intros prompt Hgraduation Hgraduate Hskill Hexp. unfold _fallback_answer.
  rewrite Hgraduation, Hgraduate, Hskill, Hexp. cbn [orb].
  destruct (contains (lit "experience:") (lower prompt)); [|now left].
  destruct (search_experience (lower prompt)) as [g|] eqn:E; [|now left].
  right. exists g. split; trivial.
  exact (@search_experience_group _ _ E).
Qed.

Lemma fallback_experience_answer_shape_witness :
  _fallback_answer (lit "Work history? Experience: {role: dev} {x}")
  = experience_pointer
  \/ exists g,
       _fallback_answer (lit "Work history? Experience: {role: dev} {x}")
       = lit "Based on the candidate's experience: " ++ g
       /\ brace_fragment
            (lower (lit "Work history? Experience: {role: dev} {x}")) g.
Proof.
  apply (fallback_experience_answer_shape
           (lit "Work history? Experience: {role: dev} {x}"));
    reflexivity.
Defined.

Lemma dumps_experience_shape (e : Experience) (t : str) :
  title e = Some t ->
  exists body, dumps_experience e = "{"%char :: "034"%char :: body ++ lit "}".
Proof.
  intros Ht. unfold dumps_experience, json_object. rewrite Ht.
  cbn [join]. unfold json_member, json_string.
  exists (flat_map json_escape (lit "title") ++ ["034"%char] ++ lit ": "
          ++ ["034"%char] ++ flat_map json_escape t ++ ["034"%char]).
  cbn [lit list_ascii_of_string app]. rewrite <- !app_assoc. reflexivity.
Qed.

Lemma in_experience_part (p : CandidateProfile) :
  experience_set (experience p) = true ->
  exists a b,
    _prepare_context p
    = a ++ (lit "Experience: " ++ dumps_experience (experience p)) ++ b.
Proof.
  intros Hset. unfold _prepare_context. apply join_inside.
  do 2 (apply in_or_app; right). apply in_or_app. left.
  rewrite Hset. now left.
Qed.

(** X20. A profile with an experience title and a prompt that mentions neither
    graduation nor skills: whatever the question is, the fallback answer
    is "Based on the candidate's experience: " followed by a fragment in
    braces of the lower-cased prompt; the pointer and the could-not-answer
    message are never given. *)
Theorem profile_with_title_gets_experience_answer :
  forall (question : str) (candidate_data : CandidateProfile) (t : str),
    title (experience candidate_data) = Some t ->
    let prompt := _create_prompt question (_prepare_context candidate_data) in
    contains (lit "graduation") (lower prompt) = false ->
    contains (lit "graduate") (lower prompt) = false ->
    contains (lit "skill") (lower prompt) = false ->
    exists g,
      _fallback_answer prompt
      = lit "Based on the candidate's experience: " ++ g
      /\ brace_fragment (lower prompt) g.
Proof.
  intros question p t Htitle prompt Hgraduation Hgraduate Hskill.
  assert (Hset : experience_set (experience p) = true).
  { unfold experience_set. now rewrite Htitle. }
  destruct (@in_experience_part p Hset) as (ca & cb & Hcontext).
  destruct (@dumps_experience_shape (experience p) t Htitle) as [body Hdumps].
  destruct (create_prompt_parts question (_prepare_context p))
    as (head & middle & Hprompt).
  fold prompt in Hprompt, Hgraduation, Hgraduate, Hskill |- *.
  clearbody prompt.
  rewrite Hcontext, Hdumps in Hprompt.
  set (rest := lower cb ++ lower middle ++ lower question
               ++ newline ++ newline ++ lit "answer:").
  assert (Hlower :
    lower prompt
    = (lower head ++ lower ca) ++ lit "experience:"
      ++ (lit " " ++ "{"%char :: "034"%char
          :: (lower body ++ "}"%char :: rest))).
  { rewrite Hprompt. unfold rest, lower.
    rewrite !map_app. cbn [map app]. rewrite !map_app.
    rewrite <- !app_assoc. cbn [app]. rewrite <- !app_assoc.
    reflexivity. }
  destruct (@search_experience_some (lower head ++ lower ca)
              (lit " " ++ "{"%char :: "034"%char
               :: (lower body ++ "}"%char :: rest))) as [g Hg].
  { apply match_experience_tail_some; [reflexivity|].
    apply in_or_app. right. now left. }
  rewrite <- Hlower in Hg.
  assert (Hmarker : contains (lit "experience:") (lower prompt) = true).
  { rewrite Hlower. apply contains_app. }
  assert (Hexp : contains (lit "experience") (lower prompt) = true).
  { rewrite Hlower.
    change (lit "experience:") with (lit "experience" ++ lit ":").
    rewrite <- (app_assoc (lit "experience")). apply contains_app. }
  exists g. unfold _fallback_answer.
  rewrite Hgraduation, Hgraduate, Hskill, Hexp, Hmarker, Hg. cbn [orb].
  split; [reflexivity|]. exact (@search_experience_group _ _ Hg).
Qed.

Lemma profile_with_title_gets_experience_answer_witness :
  exists g,
    _fallback_answer
      (_create_prompt (lit "What are the hobbies of the candidate?")
         (_prepare_context title_profile))
    = lit "Based on the candidate's experience: " ++ g
    /\ brace_fragment
         (lower (_create_prompt (lit "What are the hobbies of the candidate?")
                   (_prepare_context title_profile)))
         g.
Proof.
  refine (@profile_with_title_gets_experience_answer
            (lit "What are the hobbies of the candidate?") title_profile
            (lit "Data Engineer {Acme}") eq_refl _ _ _);
    vm_compute; reflexivity.
Defined.

(** ** The answer of the hosted model *)

Lemma py_strip_trimmed (v : json) (answer : str) :
  py_strip v = Ok answer -> trimmed answer.
Proof.
  destruct v; cbn [py_strip]; try discriminate.
  intros H. apply Ok_inj in H. subst answer. apply strip_trimmed.
Qed.

Lemma read_result_trimmed (py_str : json -> str) (result : json) (answer : str) :
  read_result py_str result = Ok answer -> trimmed answer.
Proof.
  unfold read_result.
  assert (Hfixed : trimmed no_proper_answer) by (vm_compute; reflexivity).
  assert (Hlate : forall a,
            match result with
            | JStr s => Ok (strip s)
            | JList (first :: _) => Ok (strip (py_str first))
            | _ => Ok no_proper_answer
            end = Ok a -> trimmed a).
  { intros a. destruct result as [| | | |s|[|first items]|]; intros H;
      apply Ok_inj in H; subst a; trivial; apply strip_trimmed. }
  destruct result as [| | | |s|[|first items]|]; cbn [bind];
    try exact (Hlate answer).
  destruct (py_in (lit "generated_text") first) as [[|]|e]; cbn [bind];
    [| |discriminate].
  - destruct (py_getitem first (lit "generated_text")) as [v|e] eqn:G;
      cbn [bind]; [|discriminate].
    destruct (py_strip v) as [a|e] eqn:S; cbn [bind]; [|discriminate].
    intros H. apply Ok_inj in H. subst a.
    exact (@py_strip_trimmed v answer S).
  - destruct (if is_dict first then py_in (lit "text") first else Ok false)
      as [[|]|e]; cbn [bind]; [| |discriminate].
    + destruct (py_getitem first (lit "text")) as [v|e] eqn:G;
        cbn [bind]; [|discriminate].
      destruct (py_strip v) as [a|e] eqn:S; cbn [bind]; [|discriminate].
      intros H. apply Ok_inj in H. subst a.
      exact (@py_strip_trimmed v answer S).
    + exact (Hlate answer).
Qed.

(** X21. On status 200, whatever the shape of the decoded body: an answer that
    is read from it is returned as it is read and has no white space at
    either end; and when the first item is an object whose
    "generated_text" is a string, that string, trimmed, is the answer,
    whatever else the object and the list hold. *)
Theorem hosted_answer_is_trimmed :
  forall (py_str : json -> str) (prompt text : str),
    (forall result answer,
        read_result py_str result = Ok answer ->
        _call_hf_api py_str (PostReturns 200 text (Ok result)) prompt
        = Ok answer
        /\ trimmed answer)
    /\ (forall entries items s,
          lookup (lit "generated_text") entries = Some (JStr s) ->
          _call_hf_api py_str
            (PostReturns 200 text (Ok (JList (JDict entries :: items))))
            prompt
          = Ok (strip s)).
Proof.
  intros py_str prompt text. split.
  - intros result answer H. split.
    + unfold _call_hf_api, call_body. cbn [Z.eqb Pos.eqb bind].
      now rewrite H.
    + exact (@read_result_trimmed py_str result answer H).
  - intros entries items s H.
    unfold _call_hf_api, call_body, read_result.
    cbn [Z.eqb Pos.eqb bind py_in py_getitem]. rewrite H.
    cbn [bind py_strip]. reflexivity.
Qed.

Lemma hosted_answer_is_trimmed_witness :
  _call_hf_api (fun _ => [])
    (PostReturns 200 []
       (Ok (JList [JDict [(lit "text", JStr (lit "no"));
                          (lit "generated_text", JStr (lit " In 2018. "))]])))
    skills_prompt
  = Ok (lit "In 2018.").
Proof.
  refine (proj2 (hosted_answer_is_trimmed (fun _ => []) skills_prompt [])
            [(lit "text", JStr (lit "no"));
             (lit "generated_text", JStr (lit " In 2018. "))]
            [] (lit " In 2018. ") _).
  reflexivity.
Defined.

Lemma call_hf_api_ok (py_str : json -> str) (post : PostOutcome) (prompt : str) :
  exists answer, _call_hf_api py_str post prompt = Ok answer.
Proof.
  unfold _call_hf_api.
  destruct (call_body py_str post prompt) as [answer|[]]; eauto.
Qed.

(** X22. For a stored profile, [answer_question] never takes its [except]
    branch: whatever the request to the hosted model does, an answer is
    returned; when the request raises anything but a timeout, or the
    status is neither 200 nor 503, the answer is the fallback answer for
    the prompt built from the profile and the question. *)
Theorem answer_question_never_fails :
  forall (py_str : json -> str) (exc_text : pyexc -> str)
         (question : str) (candidate_data : CandidateProfile),
    let prompt := _create_prompt question (_prepare_context candidate_data) in
    (forall post,
        exists answer,
          answer_question py_str exc_text post question candidate_data
          = Returned answer)
    /\ (forall e,
          e <> Timeout ->
          answer_question py_str exc_text (PostRaises e) question
            candidate_data
          = Returned (_fallback_answer prompt))
    /\ (forall status text decoded,
          status <> 200%Z -> status <> 503%Z ->
          answer_question py_str exc_text
            (PostReturns status text decoded) question candidate_data
          = Returned (_fallback_answer prompt)).
Proof.
  intros py_str exc_text question p prompt. unfold answer_question.
  fold prompt. split; [|split].
  - intros post. destruct (call_hf_api_ok py_str post prompt) as [a ->].
    eauto.
  - intros e He. unfold _call_hf_api, call_body. now destruct e.
  - intros status text decoded H200 H503. unfold _call_hf_api, call_body.
    destruct (Z.eqb_spec status 200) as [|_]; [contradiction|].
    destruct (Z.eqb_spec status 503) as [|_]; [contradiction|].
    reflexivity.
Qed.

Lemma answer_question_never_fails_witness :
  answer_question (fun _ => []) (fun _ => []) (PostRaises ConnectionError)
    (lit "What are the hobbies of the candidate?") python_profile
  = Returned
      (_fallback_answer
         (_create_prompt (lit "What are the hobbies of the candidate?")
            (_prepare_context python_profile))).
Proof.
  refine (proj1 (proj2 (answer_question_never_fails (fun _ => [])
                          (fun _ => [])
                          (lit "What are the hobbies of the candidate?")
                          python_profile))
            ConnectionError _).
  discriminate.
Defined.

(** ** The list of candidates *)

(** X23. The introduction shown in the list of candidates has at most 203
    characters: an introduction of at most 200 characters is shown as it
    is, without the dots, and a longer one as its first 200 characters
    followed by three dots. *)
Theorem listed_introduction_is_bounded :
  forall intro : str,
    List.length (listed_introduction intro) <= 203
    /\ (List.length intro <= 200 -> listed_introduction intro = intro)
    /\ (200 < List.length intro ->
        listed_introduction intro = firstn 200 intro ++ lit "...").
Proof.
  intros intro. unfold listed_introduction.
  destruct (Nat.ltb_spec 200 (List.length intro)) as [Hlong|Hshort].
  - rewrite slice_from_0 by lia. change (Z.to_nat 200) with 200.
    split; [|split; [lia|reflexivity]].
    rewrite length_app, length_firstn.
    change (List.length (lit "...")) with 3. lia.
  - split; [lia|]. split; [reflexivity|lia].
Qed.

Lemma listed_introduction_is_bounded_witness :
  listed_introduction (lit "Jane Roe, Python developer")
  = lit "Jane Roe, Python developer".
Proof.
  refine (proj1 (proj2 (listed_introduction_is_bounded
                          (lit "Jane Roe, Python developer"))) _).
  vm_compute. lia.
Defined.
